(** * Transit certificate binding: CSR signing and certificate import

    A shallow embedding of [builtin/logical/transit/path_certificates.go]:
    the two request handlers [pathSignCsrWrite] and [pathSetCertificateWrite]
    and the helpers [parseCsr], [parseCertificateChain] and
    [hasSingleLeafCertificate].

    The handlers call into three collaborators whose code is not part of the
    file: Go's [encoding/pem] and [crypto/x509], and the [keysutil] policy
    store.  They are taken as interfaces ([Codec], [KeyStore]); every theorem
    of the general part holds for all their implementations.  A small concrete
    implementation ([Reference]) is used to run the handlers on explicit
    requests. *)

From Stdlib Require Import String Ascii List ZArith Bool Arith Lia Permutation.
From Stdlib Require Import DecimalString.
Import ListNotations.
Local Open Scope string_scope.

Set Implicit Arguments.

(* ------------------------------------------------------------------ *)
(** ** Data model *)

(** Go's [error] values, as far as the handlers distinguish them: the
    sentinel [logical.ErrInvalidRequest] and errors that carry a message
    ([errors.New], [fmt.Errorf], and whatever the collaborators return). *)
Inductive error : Type :=
| ErrInvalidRequest
| errors_New (msg : string).

(** [err.Error()]. *)
Definition Error (e : error) : string :=
  match e with
  | ErrInvalidRequest => "invalid request"
  | errors_New msg => msg
  end.

(** A Go result pair [(value, error)] of a function that returns either. *)
Inductive result (A : Type) : Type :=
| Ok (a : A)
| Err (e : error).
Arguments Ok {A} a.
Arguments Err {A} e.

(** [x509.PublicKeyAlgorithm]. *)
Inductive PublicKeyAlgorithm : Type :=
| UnknownPublicKeyAlgorithm
| RSA
| DSA
| ECDSA
| Ed25519.

Definition PublicKeyAlgorithm_eqb (a b : PublicKeyAlgorithm) : bool :=
  match a, b with
  | UnknownPublicKeyAlgorithm, UnknownPublicKeyAlgorithm => true
  | RSA, RSA => true
  | DSA, DSA => true
  | ECDSA, ECDSA => true
  | Ed25519, Ed25519 => true
  | _, _ => false
  end.

(** The fields of [x509.Certificate] the handlers read, and the raw encoding
    the certificate was parsed from. *)
Record Certificate : Type := {
  Raw : string;
  PublicKeyAlgorithm_ : PublicKeyAlgorithm;
  PublicKey : string;
  BasicConstraintsValid : bool;
  IsCA : bool
}.

(** [x509.CertificateRequest]; the handlers pass it on unread. *)
Record CertificateRequest : Type := {
  RawCsr : string;
  Subject : string
}.

(** [&x509.CertificateRequest{}], the zero value. *)
Definition CertificateRequest_zero : CertificateRequest :=
  {| RawCsr := ""; Subject := "" |}.

(** [pem.Block]. *)
Record Block : Type := {
  Type_ : string;
  Headers : list (string * string);
  Bytes : string
}.

(** Modelled from the spec: the [keysutil.KeyType] enumeration, declared
    outside this file.  The seven signing types are the constants the
    handler names; the spec adds "symmetric types that do not support
    signing", of which the tests name aes256-gcm96; [KeyType_other] stands
    for any further enumerator. *)
Inductive KeyType : Type :=
| KeyType_AES256_GCM96
| KeyType_ECDSA_P256
| KeyType_ECDSA_P384
| KeyType_ECDSA_P521
| KeyType_ED25519
| KeyType_RSA2048
| KeyType_RSA3072
| KeyType_RSA4096
| KeyType_other (tag : nat).

(** The request fields after schema decoding: [d.Get("name")],
    [d.GetOk("version")], [d.Get("csr")], [d.Get("certificate_chain")].
    An absent string field reads as the empty string. *)
Record FieldData : Type := {
  f_name : string;
  f_version : option Z;
  f_csr : string;
  f_certificate_chain : string
}.

(** [logical.Response]: an error response with its message, or the data of
    a signed request. *)
Inductive Response : Type :=
| ErrorResponse (msg : string)
| DataResponse (name type csr : string).

(* ------------------------------------------------------------------ *)
(** ** Collaborators *)

(** [encoding/pem] and [crypto/x509].  [pem_Decode] returns the first block
    and the remainder, or no block.  The law is the library's: a decoded
    block consumes input. *)
Class Codec : Type := {
  pem_Decode : string -> option Block * string;
  x509_ParseCertificate : string -> result Certificate;
  x509_ParseCertificateRequest : string -> result CertificateRequest;
  PublicKeyAlgorithm_String : PublicKeyAlgorithm -> string;
  pem_Decode_consumes :
    forall data b rest,
      pem_Decode data = (Some b, rest) -> String.length rest < String.length data
}.

(** Modelled from the spec: the key-version store ([keysutil.Policy] and the
    backend's [GetPolicy]), declared outside this file; section 6 of the
    spec lists the capabilities.  [Storage] is the persisted state,
    [Policy] the key object a lookup returns.  Only
    [PersistCertificateChain] is handed the storage to write to. *)
Class KeyStore (Storage Policy : Type) : Type := {
  GetPolicy : Storage -> string -> option Policy * option error;
  Name : Policy -> string;
  PolicyType : Policy -> KeyType;
  LatestVersion : Policy -> Z;
  SigningSupported : KeyType -> bool;
  KeyType_String : KeyType -> string;
  CreateCsr : Policy -> Z -> CertificateRequest -> string * option error;
  ValidateLeafCertKeyMatch :
    Policy -> Z -> PublicKeyAlgorithm -> string -> bool * option error;
  PersistCertificateChain :
    Policy -> Z -> list Certificate -> Storage -> Storage * option error
}.

(* ------------------------------------------------------------------ *)
(** ** Effects *)

(** The calls a handler makes on the store, in the order it makes them. *)
Inductive Call : Type :=
| Call_GetPolicy (name : string)
| Call_Lock (exclusive : bool)
| Call_Unlock
| Call_CreateCsr (version : Z)
| Call_ValidateLeafCertKeyMatch (version : Z)
| Call_PersistCertificateChain (version : Z) (chain : list Certificate).

Definition is_persist (c : Call) : bool :=
  match c with
  | Call_PersistCertificateChain _ _ => true
  | _ => false
  end.

(** How a handler ends: it returns [(resp, err)], it panics on an index out
    of range, or its loop does not end. *)
Inductive Exit : Type :=
| Exit_return (resp : option Response) (err : option error)
| Exit_panic
| Exit_diverge.

Section Monad.
Context {Storage : Type}.

(** The persisted state and the calls made so far (oldest first). *)
Record World : Type := {
  storage : Storage;
  trace : list Call
}.

Definition log (c : Call) (w : World) : World :=
  {| storage := storage w; trace := trace w ++ [c] |}.

(** A computation continues with a value or leaves the handler. *)
Definition M (A : Type) : Type := World -> (A + Exit) * World.

Definition ret {A} (a : A) : M A := fun w => (inl a, w).

Definition bind {A B} (m : M A) (k : A -> M B) : M B :=
  fun w =>
    match m w with
    | (inl a, w') => k a w'
    | (inr e, w') => (inr e, w')
    end.

Definition exit_ {A} (e : Exit) : M A := fun w => (inr e, w).

(** [return resp, err]. *)
Definition return_ {A} (resp : option Response) (err : option error) : M A :=
  exit_ (Exit_return resp err).

Definition call (c : Call) : M unit := fun w => (inl tt, log c w).

(** [defer f(); body]: the deferred call runs when the body is left,
    whichever way. *)
Definition defer {A} (c : Call) (body : M A) : M A :=
  fun w => let (r, w') := body w in (r, log c w').

(** A handler never continues: running it gives its exit and the world. *)
Definition run (h : M Empty_set) (w : World) : Exit * World :=
  match h w with
  | (inl v, _) => match v with end
  | (inr e, w') => (e, w')
  end.
End Monad.

Arguments World Storage : clear implicits.
Arguments M Storage A : clear implicits.

Notation "x <- m ;; k" := (bind m (fun x => k))
  (at level 61, m at next level, right associativity).
Notation "' pat <- m ;; k" := (bind m (fun x => match x with pat => k end))
  (at level 61, pat pattern, m at next level, right associativity).
Notation "m ;; k" := (bind m (fun _ => k))
  (at level 61, right associativity).

(* ------------------------------------------------------------------ *)
(** ** The helpers of path_certificates.go *)

(** [leafCertsCount += 1] on a [uint8]. *)
Definition uint8_incr (n : Z) : Z := (n + 1) mod 256.

(** The loop body of [hasSingleLeafCertificate]. *)
Definition countLeaf (leafCertsCount : Z) (cert : Certificate) : Z :=
  if BasicConstraintsValid cert && negb (IsCA cert)
  then uint8_incr leafCertsCount
  else leafCertsCount.

Definition hasSingleLeafCertificate (certChain : list Certificate) : bool :=
  let leafCertsCount := fold_left countLeaf certChain 0%Z in
  let hasSingleLeafCert := if (leafCertsCount =? 1)%Z then true else false in
  hasSingleLeafCert.

(** The [switch p.Type] of [pathSetCertificateWrite]; [keyTypeMatches]
    starts false and no case is the default. *)
Definition keyTypeMatches (t : KeyType)
           (leafCertPublicKeyAlgorithm : PublicKeyAlgorithm) : bool :=
  match t with
  | KeyType_ECDSA_P256 | KeyType_ECDSA_P384 | KeyType_ECDSA_P521 =>
      if PublicKeyAlgorithm_eqb leafCertPublicKeyAlgorithm ECDSA then true else false
  | KeyType_ED25519 =>
      if PublicKeyAlgorithm_eqb leafCertPublicKeyAlgorithm Ed25519 then true else false
  | KeyType_RSA2048 | KeyType_RSA3072 | KeyType_RSA4096 =>
      if PublicKeyAlgorithm_eqb leafCertPublicKeyAlgorithm RSA then true else false
  | _ => false
  end.

Section Parsing.
Context {L : Codec}.

Definition parseCsr (csrStr : string) : result CertificateRequest :=
  if String.eqb csrStr "" then Ok CertificateRequest_zero
  else
    let (block, _) := pem_Decode csrStr in
    match block with
    | None => Err (errors_New "could not decode PEM certificate request")
    | Some block =>
        match x509_ParseCertificateRequest (Bytes block) with
        | Err err => Err err
        | Ok csr => Ok csr
        end
    end.

(** The first loop of [parseCertificateChain]: [for len(rest) != 0].  One
    unit of fuel per iteration; [None] when the fuel is used up. *)
Fixpoint decodeBlocks (fuel : nat) (rest : string) (pemCertBlocks : list Block)
  : option (result (list Block)) :=
  if String.eqb rest "" then Some (Ok pemCertBlocks)
  else
    match fuel with
    | O => None
    | S fuel' =>
        let (pemCertBlock, rest') := pem_Decode rest in
        match pemCertBlock with
        | None =>
            Some (Err (errors_New "could not decode certificate in certificate chain"))
        | Some b => decodeBlocks fuel' rest' (pemCertBlocks ++ [b])
        end
    end.

(** The second loop: [for _, certBlock := range pemCertBlocks]. *)
Fixpoint parseBlocks (pemCertBlocks : list Block) (certificates : list Certificate)
  : result (list Certificate) :=
  match pemCertBlocks with
  | [] => Ok certificates
  | certBlock :: tl =>
      match x509_ParseCertificate (Bytes certBlock) with
      | Err err =>
          Err (errors_New
                 ("failed to parse certificate in certificate chain: " ++ Error err))
      | Ok cert => parseBlocks tl (certificates ++ [cert])
      end
  end.

(** [None] stands for a first loop that does not end; with the fuel given
    here that does not happen ([parseCertificateChain_returns]). *)
Definition parseCertificateChain (certChainStr : string)
  : option (result (list Certificate)) :=
  match decodeBlocks (String.length certChainStr) certChainStr [] with
  | None => None
  | Some (Err err) => Some (Err err)
  | Some (Ok pemCertBlocks) =>
      if Nat.eqb (List.length pemCertBlocks) 0
      then Some (Err (errors_New
                        "no certificates provided in `certificate_chain` parameter"))
      else Some (parseBlocks pemCertBlocks [])
  end.
End Parsing.

(* ------------------------------------------------------------------ *)
(** ** The handlers *)

Section Handlers.
Context {Storage Policy : Type} {K : KeyStore Storage Policy} {L : Codec}.

(** [b.GetPolicy(ctx, keysutil.PolicyRequest{Storage: req.Storage, Name: name}, ...)]. *)
Definition getPolicy (name : string) : M Storage (option Policy * option error) :=
  fun w => (inl (GetPolicy (storage w) name), log (Call_GetPolicy name) w).

Definition createCsr (p : Policy) (version : Z) (csrTemplate : CertificateRequest)
  : M Storage (string * option error) :=
  call (Call_CreateCsr version) ;; ret (CreateCsr p version csrTemplate).

Definition validateLeafCertKeyMatch (p : Policy) (version : Z)
           (alg : PublicKeyAlgorithm) (pub : string)
  : M Storage (bool * option error) :=
  call (Call_ValidateLeafCertKeyMatch version) ;;
  ret (ValidateLeafCertKeyMatch p version alg pub).

(** [p.PersistCertificateChain(keyVersion, certChain, req.Storage)]: the
    one call that writes the storage. *)
Definition persistCertificateChain (p : Policy) (version : Z)
           (certChain : list Certificate) : M Storage (option error) :=
  fun w =>
    let (st', err) := PersistCertificateChain p version certChain (storage w) in
    (inl err,
     {| storage := st';
        trace := trace w ++ [Call_PersistCertificateChain version certChain] |}).

(** [certChain[0]]: out of range is a run-time panic. *)
Definition index0 (certChain : list Certificate) : M Storage Certificate :=
  match certChain with
  | [] => exit_ Exit_panic
  | c :: _ => ret c
  end.

Definition pathSignCsrWrite (CachingDisabled : bool) (d : FieldData)
  : M Storage Empty_set :=
  let name := f_name d in
  ' (p, err) <- getPolicy name ;;
  match err with
  | Some e => return_ None (Some e)
  | None =>
  match p with
  | None =>
      return_ (Some (ErrorResponse
                       ("key with provided name '" ++ name ++ "' not found")))
              (Some ErrInvalidRequest)
  | Some p =>
  (if negb CachingDisabled then call (Call_Lock false) else ret tt) ;;
  defer Call_Unlock (
    if negb (SigningSupported (PolicyType p)) then
      return_ (Some (ErrorResponse
                       ("key type '" ++ KeyType_String (PolicyType p)
                          ++ "' does not support signing")))
              (Some ErrInvalidRequest)
    else
    let pemCsrTemplate := f_csr d in
    match parseCsr pemCsrTemplate with
    | Err err => return_ (Some (ErrorResponse (Error err))) (Some ErrInvalidRequest)
    | Ok csrTemplate =>
    let signingKeyVersion :=
      match f_version d with
      | Some version => version
      | None => LatestVersion p
      end in
    ' (pemCsr, err) <- createCsr p signingKeyVersion csrTemplate ;;
    match err with
    | Some e => return_ None (Some e)
    | None =>
        return_ (Some (DataResponse (Name p) (KeyType_String (PolicyType p)) pemCsr))
                None
    end
    end)
  end
  end.

Definition pathSetCertificateWrite (CachingDisabled : bool) (d : FieldData)
  : M Storage Empty_set :=
  let name := f_name d in
  ' (p, err) <- getPolicy name ;;
  match err with
  | Some e => return_ None (Some e)
  | None =>
  match p with
  | None =>
      return_ (Some (ErrorResponse
                       ("key with provided name '" ++ name ++ "' not found")))
              (Some ErrInvalidRequest)
  | Some p =>
  (if negb CachingDisabled then call (Call_Lock true) else ret tt) ;;
  defer Call_Unlock (
    if negb (SigningSupported (PolicyType p)) then
      return_ (Some (ErrorResponse
                       ("key type " ++ KeyType_String (PolicyType p)
                          ++ " does not support signing")))
              (Some ErrInvalidRequest)
    else
    let pemCertChain := f_certificate_chain d in
    match parseCertificateChain pemCertChain with
    | None => exit_ Exit_diverge
    | Some (Err err) =>
        return_ (Some (ErrorResponse (Error err))) (Some ErrInvalidRequest)
    | Some (Ok certChain) =>
    if negb (hasSingleLeafCertificate certChain) then
      return_ (Some (ErrorResponse
                       "expected a single leaf certificate in the certificate chain"))
              (Some ErrInvalidRequest)
    else
    let keyVersion :=
      match f_version d with
      | Some version => version
      | None => LatestVersion p
      end in
    c0 <- index0 certChain ;;
    let leafCertPublicKeyAlgorithm := PublicKeyAlgorithm_ c0 in
    if negb (keyTypeMatches (PolicyType p) leafCertPublicKeyAlgorithm) then
      return_ (Some (ErrorResponse
                       ("provided leaf certificate public key type '"
                          ++ PublicKeyAlgorithm_String leafCertPublicKeyAlgorithm
                          ++ "' does not match the transit key type '"
                          ++ KeyType_String (PolicyType p) ++ "'")))
              (Some ErrInvalidRequest)
    else
    c0' <- index0 certChain ;;
    ' (valid, err) <- validateLeafCertKeyMatch p keyVersion
                        leafCertPublicKeyAlgorithm (PublicKey c0') ;;
    match err with
    | Some e =>
        return_ None
                (Some (errors_New
                         ("could not validate key match between leaf certificate key and key version in transit: "
                            ++ Error e)))
    | None =>
    if negb valid then
      return_ (Some (ErrorResponse
                       "leaf certificate public key does match the key version selected"))
              (Some ErrInvalidRequest)
    else
    (* the result of the call is dropped; [err] below is still the one of the
       key-match call *)
    _ <- persistCertificateChain p keyVersion certChain ;;
    match err with
    | Some e =>
        return_ None
                (Some (errors_New ("failed to persist certificate chain: " ++ Error e)))
    | None => return_ None None
    end
    end
    end)
  end
  end.

(** [SignCertificateRequest] and [ImportCertificate] of the spec: the
    handlers run on a storage, with an empty call trace. *)
Definition SignCertificateRequest (CachingDisabled : bool) (d : FieldData)
           (st : Storage) : Exit * World Storage :=
  run (pathSignCsrWrite CachingDisabled d) {| storage := st; trace := [] |}.

Definition ImportCertificate (CachingDisabled : bool) (d : FieldData)
           (st : Storage) : Exit * World Storage :=
  run (pathSetCertificateWrite CachingDisabled d) {| storage := st; trace := [] |}.
End Handlers.

(* ------------------------------------------------------------------ *)
(** ** The earlier revision of the signing handler *)

Section DraftHandler.
Context {Storage Policy : Type} {K : KeyStore Storage Policy}.

(** [%d] of a Go [int]. *)
Definition Itoa (n : Z) : string := NilZero.string_of_int (Z.to_int n).

(** The earlier [pathSignCsrWrite], which looks the key up, locks, resolves
    the version, logs it with [log.Printf] and returns [nil, nil].  The
    third component holds the messages handed to the logger. *)
Definition pathSignCsrWrite_draft (CachingDisabled : bool) (d : FieldData)
           (w : World Storage) : Exit * World Storage * list string :=
  let name := f_name d in
  match getPolicy name w with
  | (inr e, w1) => (e, w1, [])
  | (inl (p, err), w1) =>
      match err with
      | Some e => (Exit_return None (Some e), w1, [])
      | None =>
          match p with
          | None =>
              (Exit_return
                 None
                 (Some (errors_New
                          ("no key found with name " ++ name
                             ++ "; to import a new key, use the import/ endpoint"))),
               w1, [])
          | Some p =>
              let w2 := if negb CachingDisabled
                        then log (Call_Lock false) w1 else w1 in
              let signingKeyVersion :=
                match f_version d with
                | Some version => version
                | None => LatestVersion p
                end in
              let printed := ["Signing key version: " ++ Itoa signingKeyVersion] in
              (Exit_return None None, log Call_Unlock w2, printed)
          end
      end
  end.
End DraftHandler.

(* ------------------------------------------------------------------ *)
(** ** What the spec says, in its own words *)

(** Section 4.2: "A certificate counts as a leaf iff its basic-constraints
    extension is present/valid AND its CA flag is false." *)
Definition is_leaf (cert : Certificate) : bool :=
  BasicConstraintsValid cert && negb (IsCA cert).

(** [CountLeafCertificates(chain)], an unbounded integer. *)
Definition CountLeafCertificates (chain : list Certificate) : nat :=
  List.length (filter is_leaf chain).

(** The compatibility table of section 4.2: the algorithm a key-type family
    requires, none for the symmetric / non-signing types. *)
Definition required_algorithm (t : KeyType) : option PublicKeyAlgorithm :=
  match t with
  | KeyType_ECDSA_P256 | KeyType_ECDSA_P384 | KeyType_ECDSA_P521 => Some ECDSA
  | KeyType_ED25519 => Some Ed25519
  | KeyType_RSA2048 | KeyType_RSA3072 | KeyType_RSA4096 => Some RSA
  | KeyType_AES256_GCM96 | KeyType_other _ => None
  end.

Definition AlgorithmMatchesKeyType (publicKeyAlgorithm : PublicKeyAlgorithm)
           (keyType : KeyType) : bool :=
  match required_algorithm keyType with
  | Some a => PublicKeyAlgorithm_eqb publicKeyAlgorithm a
  | None => false
  end.

Section SpecOfDecoding.
Context {L : Codec}.

(** "Repeatedly strips and decodes PEM blocks from the front of the input
    until the remainder is empty": the blocks of an input. *)
Inductive Blocks : string -> list Block -> Prop :=
| Blocks_nil : Blocks "" []
| Blocks_cons (data rest : string) (b : Block) (bs : list Block) :
    data <> "" ->
    pem_Decode data = (Some b, rest) ->
    Blocks rest bs ->
    Blocks data (b :: bs).

(** "Any block fails to decode": stripping blocks from the front reaches a
    non-empty remainder that has no block. *)
Inductive DecodeFails : string -> Prop :=
| DecodeFails_here (data rest : string) :
    data <> "" ->
    pem_Decode data = (None, rest) ->
    DecodeFails data
| DecodeFails_later (data rest : string) (b : Block) :
    data <> "" ->
    pem_Decode data = (Some b, rest) ->
    DecodeFails rest ->
    DecodeFails data.

(** "Any block fails certificate parsing." *)
Definition ParseFails (b : Block) : Prop :=
  exists e, x509_ParseCertificate (Bytes b) = Err e.

(** A block and the certificate it parses to. *)
Definition ParsesTo (b : Block) (c : Certificate) : Prop :=
  x509_ParseCertificate (Bytes b) = Ok c.
End SpecOfDecoding.

Section ImportSpec.
Context {Storage Policy : Type} {K : KeyStore Storage Policy} {L : Codec}.

(** [p.Lock(exclusive)] is called unless caching is disabled. *)
Definition lock_calls (CachingDisabled exclusive : bool) : list Call :=
  if negb CachingDisabled then [Call_Lock exclusive] else [].

(** The validation steps of the import, as the handler takes them: key
    found, signing supported, chain decodes, one leaf counted, algorithm of
    [certChain[0]] matches, key of [certChain[0]] matches. *)
Definition ValidationPasses (d : FieldData) (st : Storage) (p : Policy)
           (certChain : list Certificate) (keyVersion : Z) : Prop :=
  GetPolicy st (f_name d) = (Some p, None) /\
  SigningSupported (PolicyType p) = true /\
  parseCertificateChain (f_certificate_chain d) = Some (Ok certChain) /\
  hasSingleLeafCertificate certChain = true /\
  keyVersion = match f_version d with
               | Some version => version
               | None => LatestVersion p
               end /\
  exists c0 tl,
    certChain = c0 :: tl /\
    keyTypeMatches (PolicyType p) (PublicKeyAlgorithm_ c0) = true /\
    ValidateLeafCertKeyMatch p keyVersion (PublicKeyAlgorithm_ c0) (PublicKey c0)
    = (true, None).

(** What a rejected import looks like: a return other than success, the
    storage as it was, no persistence call. *)
Definition Rejected (st : Storage) (out : Exit * World Storage) : Prop :=
  exists resp err tr,
    out = (Exit_return resp err, {| storage := st; trace := tr |}) /\
    (resp, err) <> (None, None) /\
    existsb is_persist tr = false.
End ImportSpec.

Section CsrSpec.
Context {L : Codec}.

(** "Non-empty input must decode as exactly one PEM block of CSR type":
    the first block is of type CERTIFICATE REQUEST, nothing follows it, and
    its contents parse as a certificate request. *)
Definition OneCsrBlock (pemString : string) : Prop :=
  exists b,
    pem_Decode pemString = (Some b, "") /\
    Type_ b = "CERTIFICATE REQUEST" /\
    exists csr, x509_ParseCertificateRequest (Bytes b) = Ok csr.

(** What [parseCsr] asks of a non-empty input: a first block, of any type
    and followed by anything, whose contents parse to [csr]. *)
Definition FirstBlockParsesTo (pemString : string) (csr : CertificateRequest) : Prop :=
  exists b rest,
    pem_Decode pemString = (Some b, rest) /\
    x509_ParseCertificateRequest (Bytes b) = Ok csr.
End CsrSpec.

Section HandlerSpec.
Context {Storage Policy : Type} {K : KeyStore Storage Policy}.

(** The version a request targets: [version] if the field is set, else the
    key's latest version. *)
Definition keyVersionOf (d : FieldData) (p : Policy) : Z :=
  match f_version d with
  | Some version => version
  | None => LatestVersion p
  end.

(** The calls every request on a found key starts with. *)
Definition prologue (CachingDisabled exclusive : bool) (d : FieldData) : list Call :=
  Call_GetPolicy (f_name d) :: lock_calls CachingDisabled exclusive.

End HandlerSpec.

(* ------------------------------------------------------------------ *)
(** ** A reference implementation of the collaborators

    A line-oriented armour in the style of PEM, a two-letter certificate
    encoding, and a store that keeps its keys and attached chains in lists.
    It is small enough to run the handlers on explicit requests. *)

Definition nl : string := String (ascii_of_nat 10) "".

(** [strip_prefix p s]: the rest of [s] after the prefix [p]. *)
Fixpoint strip_prefix (p s : string) : option string :=
  match p, s with
  | EmptyString, _ => Some s
  | String a p', String b s' => if Ascii.eqb a b then strip_prefix p' s' else None
  | String _ _, EmptyString => None
  end.

(** [cut sep s]: [s] before and after the first occurrence of [sep]. *)
Fixpoint cut (sep s : string) : option (string * string) :=
  match strip_prefix sep s with
  | Some after => Some ("", after)
  | None =>
      match s with
      | EmptyString => None
      | String c s' =>
          match cut sep s' with
          | Some (before, after) => Some (String c before, after)
          | None => None
          end
      end
  end.

Lemma strip_prefix_length (p s r : string) :
  strip_prefix p s = Some r -> String.length s = String.length p + String.length r.
Proof.
  revert s; induction p as [|a p IH]; intros s H.
  - simpl in H. injection H as ->. reflexivity.
  - destruct s as [|b s]; simpl in H; [discriminate|].
    destruct (Ascii.eqb a b); [|discriminate].
    simpl. rewrite (IH _ H). reflexivity.
Qed.

Lemma cut_length (sep s before after : string) :
  cut sep s = Some (before, after) -> String.length after <= String.length s.
Proof.
  revert before; induction s as [|c s IH]; intros before H.
  - simpl in H. destruct (strip_prefix sep "") eqn:E; [|discriminate].
    injection H as _ <-. apply strip_prefix_length in E. lia.
  - simpl in H. destruct (strip_prefix sep (String c s)) eqn:E.
    + injection H as _ <-. apply strip_prefix_length in E. lia.
    + destruct (cut sep s) as [[b' a']|] eqn:E'; [|discriminate].
      injection H as _ <-. specialize (IH _ eq_refl). simpl. lia.
Qed.

Module Reference.

(** One armoured block: a BEGIN line with the type, one body line, the END
    line with the same type. *)
Definition Decode (data : string) : option Block * string :=
  match strip_prefix "-----BEGIN " data with
  | None => (None, data)
  | Some s1 =>
      match cut ("-----" ++ nl) s1 with
      | None => (None, data)
      | Some (ty, s2) =>
          match cut (nl ++ "-----END " ++ ty ++ "-----" ++ nl) s2 with
          | None => (None, data)
          | Some (body, rest) =>
              (Some {| Type_ := ty; Headers := []; Bytes := body |}, rest)
          end
      end
  end.

Definition Encode (b : Block) : string :=
  "-----BEGIN " ++ Type_ b ++ "-----" ++ nl ++ Bytes b ++ nl
    ++ "-----END " ++ Type_ b ++ "-----" ++ nl.

(** A certificate is encoded as a letter for the algorithm, a letter for
    the basic constraints (L: valid, not a CA; C: valid, a CA; N: not
    valid), and the public key. *)
Definition algorithm_of_letter (a : ascii) : option PublicKeyAlgorithm :=
  if Ascii.eqb a "R" then Some RSA
  else if Ascii.eqb a "D" then Some DSA
  else if Ascii.eqb a "E" then Some ECDSA
  else if Ascii.eqb a "Y" then Some Ed25519
  else if Ascii.eqb a "U" then Some UnknownPublicKeyAlgorithm
  else None.

Definition constraints_of_letter (a : ascii) : option (bool * bool) :=
  if Ascii.eqb a "L" then Some (true, false)
  else if Ascii.eqb a "C" then Some (true, true)
  else if Ascii.eqb a "N" then Some (false, false)
  else None.

Definition ParseCertificate (der : string) : result Certificate :=
  match der with
  | String a (String c key) =>
      match algorithm_of_letter a, constraints_of_letter c with
      | Some alg, Some (bcv, ca) =>
          Ok {| Raw := der; PublicKeyAlgorithm_ := alg; PublicKey := key;
                BasicConstraintsValid := bcv; IsCA := ca |}
      | _, _ => Err (errors_New "x509: malformed certificate")
      end
  | _ => Err (errors_New "x509: malformed certificate")
  end.

(** A certificate request is encoded as the letter Q and the subject. *)
Definition ParseCertificateRequest (der : string) : result CertificateRequest :=
  match der with
  | String a subject =>
      if Ascii.eqb a "Q" then Ok {| RawCsr := der; Subject := subject |}
      else Err (errors_New "asn1: structure error")
  | EmptyString => Err (errors_New "asn1: syntax error")
  end.

Definition AlgorithmString (a : PublicKeyAlgorithm) : string :=
  match a with
  | UnknownPublicKeyAlgorithm => "0"
  | RSA => "RSA"
  | DSA => "DSA"
  | ECDSA => "ECDSA"
  | Ed25519 => "Ed25519"
  end.

Lemma Decode_consumes (data : string) (b : Block) (rest : string) :
  Decode data = (Some b, rest) -> String.length rest < String.length data.
Proof.
  unfold Decode. intros H.
  destruct (strip_prefix "-----BEGIN " data) as [s1|] eqn:E1; [|discriminate].
  destruct (cut ("-----" ++ nl) s1) as [[ty s2]|] eqn:E2; [|discriminate].
  destruct (cut (nl ++ "-----END " ++ ty ++ "-----" ++ nl) s2)
    as [[body r]|] eqn:E3; [|discriminate].
  injection H as _ <-.
  apply strip_prefix_length in E1. apply cut_length in E2. apply cut_length in E3.
  simpl in E1. lia.
Qed.

#[global] Instance codec : Codec := {|
  pem_Decode := Decode;
  x509_ParseCertificate := ParseCertificate;
  x509_ParseCertificateRequest := ParseCertificateRequest;
  PublicKeyAlgorithm_String := AlgorithmString;
  pem_Decode_consumes := Decode_consumes
|}.

(** A key: its name, type and latest version, and the public key of each
    version. *)
Record Policy : Type := {
  p_Name : string;
  p_Type : KeyType;
  p_LatestVersion : Z;
  p_Keys : list (Z * string)
}.

(** The storage: the keys, the chains attached to key versions, and
    whether the storage refuses writes. *)
Record Storage : Type := {
  policies : list Policy;
  chains : list (string * Z * list Certificate);
  read_only : bool
}.

Definition Lookup (st : Storage) (name : string) : option Policy * option error :=
  (find (fun p => String.eqb (p_Name p) name) (policies st), None).

Definition SupportsSigning (t : KeyType) : bool :=
  match t with
  | KeyType_ECDSA_P256 | KeyType_ECDSA_P384 | KeyType_ECDSA_P521
  | KeyType_ED25519
  | KeyType_RSA2048 | KeyType_RSA3072 | KeyType_RSA4096 => true
  | KeyType_AES256_GCM96 | KeyType_other _ => false
  end.

Definition TypeString (t : KeyType) : string :=
  match t with
  | KeyType_AES256_GCM96 => "aes256-gcm96"
  | KeyType_ECDSA_P256 => "ecdsa-p256"
  | KeyType_ECDSA_P384 => "ecdsa-p384"
  | KeyType_ECDSA_P521 => "ecdsa-p521"
  | KeyType_ED25519 => "ed25519"
  | KeyType_RSA2048 => "rsa-2048"
  | KeyType_RSA3072 => "rsa-3072"
  | KeyType_RSA4096 => "rsa-4096"
  | KeyType_other _ => "[unknown]"
  end.

Definition version_key (p : Policy) (version : Z) : option string :=
  match find (fun e => Z.eqb (fst e) version) (p_Keys p) with
  | Some e => Some (snd e)
  | None => None
  end.

Definition MakeCsr (p : Policy) (version : Z) (csrTemplate : CertificateRequest)
  : string * option error :=
  match version_key p version with
  | Some _ =>
      (Encode {| Type_ := "CERTIFICATE REQUEST"; Headers := [];
                     Bytes := "Q" ++ Subject csrTemplate |}, None)
  | None => ("", Some (errors_New "version not found"))
  end.

Definition KeyMatch (p : Policy) (version : Z)
           (alg : PublicKeyAlgorithm) (pub : string) : bool * option error :=
  match version_key p version with
  | Some k => (String.eqb k pub, None)
  | None => (false, Some (errors_New "version not found"))
  end.

Definition Persist (p : Policy) (version : Z)
           (certChain : list Certificate) (st : Storage) : Storage * option error :=
  if read_only st then (st, Some (errors_New "cannot write to readonly storage"))
  else ({| policies := policies st;
           chains := (p_Name p, version, certChain) :: chains st;
           read_only := read_only st |}, None).

#[global] Instance store : KeyStore Storage Policy := {|
  GetPolicy := Lookup;
  Name := p_Name;
  PolicyType := p_Type;
  LatestVersion := p_LatestVersion;
  SigningSupported := SupportsSigning;
  KeyType_String := TypeString;
  CreateCsr := MakeCsr;
  ValidateLeafCertKeyMatch := KeyMatch;
  PersistCertificateChain := Persist
|}.

(** Explicit inputs. *)
Definition cert_block (der : string) : string :=
  Encode {| Type_ := "CERTIFICATE"; Headers := []; Bytes := der |}.

Definition csr_block (der : string) : string :=
  Encode {| Type_ := "CERTIFICATE REQUEST"; Headers := []; Bytes := der |}.

Definition rsa_key : Policy :=
  {| p_Name := "leaf"; p_Type := KeyType_RSA2048; p_LatestVersion := 1;
     p_Keys := [(1%Z, "KEY1")] |}.

Definition aes_key : Policy :=
  {| p_Name := "sym"; p_Type := KeyType_AES256_GCM96; p_LatestVersion := 1;
     p_Keys := [(1%Z, "")] |}.

Definition st0 : Storage :=
  {| policies := [rsa_key; aes_key]; chains := []; read_only := false |}.

Definition st_read_only : Storage :=
  {| policies := [rsa_key; aes_key]; chains := []; read_only := true |}.

Definition import_request (name chain : string) : FieldData :=
  {| f_name := name; f_version := None; f_csr := ""; f_certificate_chain := chain |}.

Definition sign_request (name csr : string) : FieldData :=
  {| f_name := name; f_version := None; f_csr := csr; f_certificate_chain := "" |}.

(** [n] copies of one armoured certificate, concatenated. *)
Fixpoint repeat_block (n : nat) (blk : string) : string :=
  match n with
  | O => ""
  | S n' => blk ++ repeat_block n' blk
  end.

End Reference.

(** Explicit certificates and inputs of the examples. *)
Definition leaf_rsa_key1 : Certificate :=
  {| Raw := "RLKEY1"; PublicKeyAlgorithm_ := RSA; PublicKey := "KEY1";
     BasicConstraintsValid := true; IsCA := false |}.

Definition ca_rsa_key1 : Certificate :=
  {| Raw := "RCKEY1"; PublicKeyAlgorithm_ := RSA; PublicKey := "KEY1";
     BasicConstraintsValid := true; IsCA := true |}.

Definition leaf_ecdsa_other : Certificate :=
  {| Raw := "ELother"; PublicKeyAlgorithm_ := ECDSA; PublicKey := "other";
     BasicConstraintsValid := true; IsCA := false |}.

Definition ca_ecdsa_other : Certificate :=
  {| Raw := "ECother"; PublicKeyAlgorithm_ := ECDSA; PublicKey := "other";
     BasicConstraintsValid := true; IsCA := true |}.

(** A CA certificate, then the leaf. *)
Definition chain_ca_then_leaf : string :=
  Reference.cert_block "RCKEY1" ++ Reference.cert_block "ELother".

Definition chain_ca_then_matching_leaf : string :=
  Reference.cert_block "ECother" ++ Reference.cert_block "RLKEY1".

(** 257 copies of one leaf certificate. *)
Definition chain_257_leaves : string :=
  Reference.repeat_block 257 (Reference.cert_block "RLKEY1").

(** A certificate request followed by a certificate. *)
Definition csr_then_certificate : string :=
  Reference.csr_block "Qcn=a" ++ Reference.cert_block "RLKEY1".

(** A certificate request armoured as a certificate. *)
Definition csr_labelled_certificate : string :=
  Reference.cert_block "Qcn=a".

(** A block that is not a certificate, then text that is not armoured. *)
Definition bad_block_then_text : string :=
  Reference.cert_block "??" ++ "trailing text".

(** A certificate, then two blocks that are not certificates. *)
Definition chain_with_two_bad_blocks : string :=
  Reference.cert_block "RLKEY1" ++ Reference.cert_block "??"
    ++ Reference.cert_block "!!".

(** The reference store behind a lookup that fails while handing back a key. *)
Definition unavailable_store : KeyStore Reference.Storage Reference.Policy :=
  {| GetPolicy := fun _ _ =>
                    (Some Reference.rsa_key, Some (errors_New "storage unavailable"));
     Name := Reference.p_Name;
     PolicyType := Reference.p_Type;
     LatestVersion := Reference.p_LatestVersion;
     SigningSupported := Reference.SupportsSigning;
     KeyType_String := Reference.TypeString;
     CreateCsr := Reference.MakeCsr;
     ValidateLeafCertKeyMatch := Reference.KeyMatch;
     PersistCertificateChain := Reference.Persist |}.

(** A request that names version 9 of a key. *)
Definition request_v9 (name csr chain : string) : FieldData :=
  {| f_name := name; f_version := Some 9%Z; f_csr := csr;
     f_certificate_chain := chain |}.

(** A CA certificate and a certificate without valid basic constraints. *)
Definition chain_without_leaf : string :=
  Reference.cert_block "RCKEY1" ++ Reference.cert_block "RNKEY1".

(* ------------------------------------------------------------------ *)
(** ** Certificate-chain decoding *)

Section DecodingFacts.
Context {L : Codec}.

Lemma eqb_empty_false (s : string) : String.eqb s "" = false <-> s <> "".
Proof. apply String.eqb_neq. Qed.

Lemma decodeBlocks_fuel (fuel : nat) :
  forall rest acc,
    String.length rest <= fuel -> exists r, decodeBlocks fuel rest acc = Some r.
Proof.
  induction fuel as [|fuel IH]; intros rest acc Hlen.
  - destruct rest; simpl in *; [eexists; reflexivity | lia].
  - simpl. destruct (String.eqb rest "") eqn:E; [eexists; reflexivity|].
    destruct (pem_Decode rest) as [[b|] rest'] eqn:D; [|eexists; reflexivity].
    apply IH. apply pem_Decode_consumes in D. lia.
Qed.

Lemma decodeBlocks_ok (fuel : nat) :
  forall rest acc bs,
    decodeBlocks fuel rest acc = Some (Ok bs) ->
    exists bs', Blocks rest bs' /\ bs = (acc ++ bs')%list.
Proof.
  induction fuel as [|fuel IH]; intros rest acc bs; simpl;
    destruct (String.eqb rest "") eqn:E.
  - apply String.eqb_eq in E; subst. intros [= <-].
    exists []. split; [constructor | now rewrite app_nil_r].
  - discriminate.
  - apply String.eqb_eq in E; subst. intros [= <-].
    exists []. split; [constructor | now rewrite app_nil_r].
  - apply eqb_empty_false in E.
    destruct (pem_Decode rest) as [[b|] rest'] eqn:D; [|discriminate].
    intros H. destruct (IH _ _ _ H) as (bs' & HB & ->).
    exists (b :: bs'). split.
    + econstructor; eassumption.
    + now rewrite <- app_assoc.
Qed.

Lemma decodeBlocks_err (fuel : nat) :
  forall rest acc e,
    decodeBlocks fuel rest acc = Some (Err e) -> DecodeFails rest.
Proof.
  induction fuel as [|fuel IH]; intros rest acc e; simpl;
    destruct (String.eqb rest "") eqn:E; try discriminate.
  apply eqb_empty_false in E.
  destruct (pem_Decode rest) as [[b|] rest'] eqn:D.
  - intros H. eapply DecodeFails_later; eauto.
  - intros _. eapply DecodeFails_here; eauto.
Qed.

Lemma Blocks_deterministic (s : string) (bs : list Block) :
  Blocks s bs -> forall bs', Blocks s bs' -> bs = bs'.
Proof.
  induction 1 as [|data rest b bs Hne HD HB IH]; intros bs' H'.
  - inversion H'; subst; [reflexivity | congruence].
  - inversion H' as [|data' rest' b' bs0 Hne' HD' HB']; subst; [congruence|].
    rewrite HD in HD'. injection HD' as <- <-.
    f_equal. now apply IH.
Qed.

Lemma Blocks_not_DecodeFails (s : string) (bs : list Block) :
  Blocks s bs -> DecodeFails s -> False.
Proof.
  induction 1 as [|data rest b bs Hne HD HB IH]; intros HF.
  - inversion HF; congruence.
  - inversion HF as [d r Hn HD'|d r b' Hn HD' HF']; subst.
    + congruence.
    + rewrite HD in HD'. injection HD' as <- <-. auto.
Qed.

Lemma parseBlocks_ok (bs : list Block) :
  forall acc certs,
    parseBlocks bs acc = Ok certs ->
    exists cs, certs = (acc ++ cs)%list /\ Forall2 ParsesTo bs cs.
Proof.
  induction bs as [|b bs IH]; intros acc certs; simpl.
  - intros [= <-]. exists []. split; [now rewrite app_nil_r | constructor].
  - destruct (x509_ParseCertificate (Bytes b)) as [c|e] eqn:P; [|discriminate].
    intros H. destruct (IH _ _ H) as (cs & -> & HF).
    exists (c :: cs). split; [now rewrite <- app_assoc | now constructor].
Qed.

Lemma parseBlocks_err (bs : list Block) :
  forall acc e, parseBlocks bs acc = Err e -> Exists ParseFails bs.
Proof.
  induction bs as [|b bs IH]; intros acc e; simpl; [discriminate|].
  destruct (x509_ParseCertificate (Bytes b)) as [c|e'] eqn:P.
  - intros H. apply Exists_cons_tl. eapply IH; eauto.
  - intros _. apply Exists_cons_hd. now exists e'.
Qed.

Lemma ParsesTo_not_ParseFails (bs : list Block) (cs : list Certificate) :
  Forall2 ParsesTo bs cs -> Exists ParseFails bs -> False.
Proof.
  induction 1 as [|b c bs cs HP HF IH]; intros HE; inversion HE; subst; auto.
  destruct H0 as [e He]. unfold ParsesTo in HP. congruence.
Qed.

(** The function always returns: the fuel it takes is enough. *)
Lemma parseCertificateChain_returns (s : string) :
  exists r, parseCertificateChain s = Some r.
Proof.
  unfold parseCertificateChain.
  destruct (@decodeBlocks_fuel (String.length s) s [] (le_n _)) as [r ->].
  destruct r as [bs|e]; [|eexists; reflexivity].
  destruct (Nat.eqb (List.length bs) 0); eexists; reflexivity.
Qed.

(** A returned chain: the blocks of the input, at least one, each parsed. *)
Lemma parseCertificateChain_ok (s : string) (certs : list Certificate) :
  parseCertificateChain s = Some (Ok certs) ->
  exists bs, Blocks s bs /\ bs <> [] /\ Forall2 ParsesTo bs certs.
Proof.
  unfold parseCertificateChain.
  destruct (decodeBlocks (String.length s) s []) as [[bs|e]|] eqn:D; try discriminate.
  destruct (Nat.eqb (List.length bs) 0) eqn:Len; [discriminate|].
  intros [= H].
  apply decodeBlocks_ok in D. destruct D as (bs' & HB & ->). simpl in *.
  apply parseBlocks_ok in H. destruct H as (cs & -> & HF). simpl.
  exists bs'. repeat split; auto.
  intros ->. discriminate.
Qed.

(** A returned error: one of the three causes. *)
Lemma parseCertificateChain_err (s : string) (e : error) :
  parseCertificateChain s = Some (Err e) ->
  DecodeFails s \/
  exists bs, Blocks s bs /\ (bs = [] \/ Exists ParseFails bs).
Proof.
  unfold parseCertificateChain.
  destruct (decodeBlocks (String.length s) s []) as [[bs|e']|] eqn:D; try discriminate.
  - apply decodeBlocks_ok in D. destruct D as (bs' & HB & ->). simpl.
    destruct (Nat.eqb (List.length bs') 0) eqn:Len.
    + intros _. right. exists bs'. split; auto. left.
      apply Nat.eqb_eq in Len. now destruct bs'.
    + intros [= H]. right. exists bs'. split; auto. right.
      eapply parseBlocks_err; eauto.
  - intros _. left. eapply decodeBlocks_err; eauto.
Qed.

Lemma parseCertificateChain_nonempty (s : string) (certs : list Certificate) :
  parseCertificateChain s = Some (Ok certs) -> certs <> [].
Proof.
  intros H. apply parseCertificateChain_ok in H.
  destruct H as (bs & _ & Hne & HF).
  intros ->. inversion HF; subst. congruence.
Qed.
End DecodingFacts.

(** C5: for every input, [parseCertificateChain] returns; it returns an
    error exactly when stripping blocks from the front meets a remainder
    that does not decode, or some block does not parse as a certificate, or
    the input has no block; and a returned chain lists the certificates of
    the input's blocks, in the order of the input. *)
Theorem parseCertificateChain_spec (L : Codec) (s : string) :
  (exists r, parseCertificateChain s = Some r) /\
  ((exists e, parseCertificateChain s = Some (Err e)) <->
   (DecodeFails s \/
    exists bs, Blocks s bs /\ (bs = [] \/ Exists ParseFails bs))) /\
  (forall certs,
      parseCertificateChain s = Some (Ok certs) ->
      exists bs, Blocks s bs /\ Forall2 ParsesTo bs certs).
Proof.
  split; [apply parseCertificateChain_returns|]. split; [split|].
  - intros [e He]. eapply parseCertificateChain_err; eauto.
  - intros Hcause.
    destruct (parseCertificateChain_returns s) as [[certs|e] Hr];
      [exfalso | now exists e].
    apply parseCertificateChain_ok in Hr. destruct Hr as (bs & HB & Hne & HF).
    destruct Hcause as [HD | (bs' & HB' & Hbad)].
    + eapply Blocks_not_DecodeFails; eauto.
    + rewrite (Blocks_deterministic HB' HB) in Hbad.
      destruct Hbad as [-> | HE]; [congruence|].
      eapply ParsesTo_not_ParseFails; eauto.
  - intros certs H. apply parseCertificateChain_ok in H.
    destruct H as (bs & HB & _ & HF). eauto.
Qed.

(** The three causes of an error and a returned chain, on the reference
    codec. *)
Example parseCertificateChain_in_input_order :
  parseCertificateChain chain_ca_then_leaf
  = Some (Ok [ca_rsa_key1; leaf_ecdsa_other]).
Proof. reflexivity. Qed.

Example parseCertificateChain_no_block :
  parseCertificateChain ""
  = Some (Err (errors_New
                 "no certificates provided in `certificate_chain` parameter")).
Proof. reflexivity. Qed.

Example parseCertificateChain_remainder_not_decoded :
  parseCertificateChain (Reference.cert_block "RLKEY1" ++ nl)
  = Some (Err (errors_New "could not decode certificate in certificate chain")).
Proof. reflexivity. Qed.

Example parseCertificateChain_block_not_parsed :
  parseCertificateChain (Reference.cert_block "RLKEY1" ++ Reference.cert_block "??")
  = Some (Err (errors_New
                 "failed to parse certificate in certificate chain: x509: malformed certificate")).
Proof. reflexivity. Qed.

(* ------------------------------------------------------------------ *)
(** ** The import handler, case by case *)

Section ImportFacts.
Context {Storage Policy : Type} {K : KeyStore Storage Policy} {L : Codec}.

Ltac unfold_handler :=
  unfold ImportCertificate, SignCertificateRequest, run,
    pathSetCertificateWrite, pathSignCsrWrite,
    bind, defer, getPolicy, createCsr, validateLeafCertKeyMatch,
    persistCertificateChain, index0, call, ret, return_, exit_, log, lock_calls;
  simpl.

(** When validation passes, the handler persists and reports success,
    whatever the persistence call answers. *)
Lemma ImportCertificate_validated
      (CachingDisabled : bool) (d : FieldData) (st : Storage)
      (p : Policy) (certChain : list Certificate) (keyVersion : Z) :
  ValidationPasses d st p certChain keyVersion ->
  ImportCertificate CachingDisabled d st =
  (Exit_return None None,
   {| storage := fst (PersistCertificateChain p keyVersion certChain st);
      trace := Call_GetPolicy (f_name d)
               :: lock_calls CachingDisabled true
               ++ [Call_ValidateLeafCertKeyMatch keyVersion;
                   Call_PersistCertificateChain keyVersion certChain;
                   Call_Unlock] |}).
Proof.
  intros (HG & HS & HP & HL & -> & c0 & tl & -> & HT & HV).
  unfold_handler. rewrite HG.
  destruct CachingDisabled; simpl; rewrite HS; simpl; rewrite HP, HL; simpl;
    rewrite HT; simpl; rewrite HV; simpl;
    destruct (PersistCertificateChain p _ (c0 :: tl) st); reflexivity.
Qed.

Ltac rejected :=
  split;
  [ let H := fresh in
    intros ? ? ? H; unfold ValidationPasses in H;
    decompose [and ex] H; clear H; subst;
    repeat match goal with
           | H1 : ?a = _, H2 : ?a = _ |- _ =>
               rewrite H1 in H2; inversion H2; clear H2; subst
           end;
    congruence
  | try match goal with
        | |- context [negb ?cd] => destruct cd
        end;
    simpl; do 3 eexists;
    (split; [reflexivity|]); (split; [discriminate | reflexivity]) ].

(** Every import either passes validation or is rejected. *)
Lemma ImportCertificate_cases
      (CachingDisabled : bool) (d : FieldData) (st : Storage) :
  (exists p certChain keyVersion, ValidationPasses d st p certChain keyVersion) \/
  ((forall p certChain keyVersion, ~ ValidationPasses d st p certChain keyVersion) /\
   Rejected st (ImportCertificate CachingDisabled d st)).
Proof.
  unfold Rejected. unfold_handler.
  destruct (GetPolicy st (f_name d)) as [p err] eqn:HG.
  destruct err as [e|]; [right; rejected|].
  destruct p as [p|]; [|right; rejected].
  destruct (SigningSupported (PolicyType p)) eqn:HS; [|right; rejected].
  destruct (parseCertificateChain (f_certificate_chain d))
    as [[certChain|e]|] eqn:HP; [|right; rejected|].
  2:{ destruct (parseCertificateChain_returns (f_certificate_chain d)); congruence. }
  destruct (hasSingleLeafCertificate certChain) eqn:HL; [|right; rejected].
  destruct certChain as [|c0 tl]; [discriminate|].
  destruct (keyTypeMatches (PolicyType p) (PublicKeyAlgorithm_ c0)) eqn:HT;
    [|right; rejected].
  destruct (ValidateLeafCertKeyMatch p
              match f_version d with Some version => version | None => LatestVersion p end
              (PublicKeyAlgorithm_ c0) (PublicKey c0))
    as [valid err] eqn:HV.
  destruct err as [e|]; [right; rejected|].
  destruct valid; [|right; rejected].
  left. exists p, (c0 :: tl). eexists.
  repeat split; eauto.
Qed.

(** When validation does not pass, the import is rejected. *)
Lemma ImportCertificate_rejected
      (CachingDisabled : bool) (d : FieldData) (st : Storage) :
  (forall p certChain keyVersion, ~ ValidationPasses d st p certChain keyVersion) ->
  Rejected st (ImportCertificate CachingDisabled d st).
Proof.
  intros Hno.
  destruct (ImportCertificate_cases CachingDisabled d st)
    as [(p & c & v & H) | [_ H]]; [|exact H].
  destruct (Hno _ _ _ H).
Qed.
(** The signing handler returns, with the storage as it was and without a
    persistence call. *)
Lemma SignCertificateRequest_frame
      (CachingDisabled : bool) (d : FieldData) (st : Storage) :
  exists resp err tr,
    SignCertificateRequest CachingDisabled d st =
    (Exit_return resp err, {| storage := st; trace := tr |}) /\
    existsb is_persist tr = false.
Proof.
  unfold_handler.
  destruct (GetPolicy st (f_name d)) as [p err].
  destruct err as [e|]; [do 3 eexists; split; reflexivity|].
  destruct p as [p|]; [|do 3 eexists; split; reflexivity].
  destruct (SigningSupported (PolicyType p));
    [|destruct CachingDisabled; simpl; do 3 eexists; split; reflexivity].
  destruct (parseCsr (f_csr d)) as [csrTemplate|e];
    [|destruct CachingDisabled; simpl; do 3 eexists; split; reflexivity].
  destruct CachingDisabled; simpl;
    destruct (CreateCsr p _ csrTemplate) as [pemCsr [e|]];
    do 3 eexists; split; reflexivity.
Qed.
End ImportFacts.

(* ------------------------------------------------------------------ *)
(** ** Counting leaves *)

Lemma fold_countLeaf (chain : list Certificate) :
  forall n : Z,
    (0 <= n < 256)%Z ->
    fold_left countLeaf chain n
    = ((n + Z.of_nat (CountLeafCertificates chain)) mod 256)%Z.
Proof.
  unfold CountLeafCertificates.
  induction chain as [|c chain IH]; intros n Hn; simpl.
  - rewrite Z.add_0_r. symmetry. now apply Z.mod_small.
  - unfold countLeaf at 2. unfold is_leaf at 1.
    destruct (BasicConstraintsValid c && negb (IsCA c)).
    + rewrite IH by (unfold uint8_incr; apply Z.mod_pos_bound; lia).
      unfold uint8_incr. rewrite Z.add_mod_idemp_l by lia.
      f_equal. simpl List.length. lia.
    + now apply IH.
Qed.

(** The counter is a [uint8]: the check sees the number of leaves modulo 256. *)
Lemma hasSingleLeafCertificate_mod (chain : list Certificate) :
  hasSingleLeafCertificate chain
  = (Z.of_nat (CountLeafCertificates chain) mod 256 =? 1)%Z.
Proof.
  unfold hasSingleLeafCertificate. rewrite fold_countLeaf by lia. simpl.
  now destruct (Z.of_nat (CountLeafCertificates chain) mod 256 =? 1)%Z.
Qed.

(** X19: below 256 leaves the check is the one the spec describes. *)
Lemma hasSingleLeafCertificate_small (chain : list Certificate) :
  CountLeafCertificates chain < 256 ->
  hasSingleLeafCertificate chain = true <-> CountLeafCertificates chain = 1.
Proof.
  intros Hlt. rewrite hasSingleLeafCertificate_mod.
  rewrite Z.mod_small by lia. rewrite Z.eqb_eq. lia.
Qed.

(* ------------------------------------------------------------------ *)
(** ** Import: persistence *)

(** C1: on a request that passes every validation step, the handler calls
    the persistence operation and then reports success, [(nil, nil)], also
    when that operation answered with an error: the answer is dropped and
    the test that follows reads the error of the key-match call, which is
    nil at that point. *)
Theorem ImportCertificate_persistence_error_unreported
        {Storage Policy : Type} (K : KeyStore Storage Policy) (L : Codec)
        (CachingDisabled : bool) (d : FieldData) (st : Storage)
        (p : Policy) (certChain : list Certificate) (keyVersion : Z)
        (perr : error) :
  ValidationPasses d st p certChain keyVersion ->
  snd (PersistCertificateChain p keyVersion certChain st) = Some perr ->
  fst (ImportCertificate CachingDisabled d st) = Exit_return None None.
Proof.
  intros HV _. now rewrite (ImportCertificate_validated CachingDisabled HV).
Qed.

Lemma reference_import_passes (st : Reference.Storage) :
  Reference.policies st = [Reference.rsa_key; Reference.aes_key] ->
  ValidationPasses
    (Reference.import_request "leaf" (Reference.cert_block "RLKEY1"))
    st Reference.rsa_key [leaf_rsa_key1] 1.
Proof.
  intros Hp. unfold ValidationPasses. simpl. unfold Reference.Lookup. rewrite Hp.
  repeat split. exists leaf_rsa_key1, []. repeat split.
Defined.

Lemma ImportCertificate_persistence_error_unreported_witness :
  ValidationPasses
    (Reference.import_request "leaf" (Reference.cert_block "RLKEY1"))
    Reference.st_read_only Reference.rsa_key [leaf_rsa_key1] 1 /\
  snd (PersistCertificateChain Reference.rsa_key 1 [leaf_rsa_key1]
                               Reference.st_read_only)
  = Some (errors_New "cannot write to readonly storage") /\
  fst (ImportCertificate false
         (Reference.import_request "leaf" (Reference.cert_block "RLKEY1"))
         Reference.st_read_only)
  = Exit_return None None.
Proof.
  split; [apply reference_import_passes; reflexivity|].
  split; [reflexivity|].
  apply (@ImportCertificate_persistence_error_unreported _ _
           Reference.store Reference.codec false _ _ Reference.rsa_key
           [leaf_rsa_key1] 1%Z (errors_New "cannot write to readonly storage")).
  - apply reference_import_passes; reflexivity.
  - reflexivity.
Defined.

(* ------------------------------------------------------------------ *)
(** ** Import: which certificate is checked *)

(** C2: the certificate whose algorithm and public key are checked is
    [certChain[0]], which need not be the leaf.  On the RSA key "leaf" whose
    version 1 has the public key KEY1: a chain of an RSA CA certificate
    carrying KEY1 followed by the one leaf, an ECDSA certificate with
    another key, is accepted and persisted; a chain of an ECDSA CA
    certificate followed by the one leaf, an RSA certificate carrying KEY1,
    is refused for its key type, the message naming ECDSA. *)
Theorem ImportCertificate_checks_first_certificate :
  (parseCertificateChain chain_ca_then_leaf
   = Some (Ok [ca_rsa_key1; leaf_ecdsa_other]) /\
   filter is_leaf [ca_rsa_key1; leaf_ecdsa_other] = [leaf_ecdsa_other] /\
   keyTypeMatches KeyType_RSA2048 (PublicKeyAlgorithm_ leaf_ecdsa_other) = false /\
   ValidateLeafCertKeyMatch Reference.rsa_key 1 ECDSA (PublicKey leaf_ecdsa_other)
   = (false, None) /\
   ImportCertificate false (Reference.import_request "leaf" chain_ca_then_leaf)
                     Reference.st0
   = (Exit_return None None,
      {| storage :=
           {| Reference.policies := [Reference.rsa_key; Reference.aes_key];
              Reference.chains := [("leaf", 1%Z, [ca_rsa_key1; leaf_ecdsa_other])];
              Reference.read_only := false |};
         trace := [Call_GetPolicy "leaf"; Call_Lock true;
                   Call_ValidateLeafCertKeyMatch 1;
                   Call_PersistCertificateChain 1 [ca_rsa_key1; leaf_ecdsa_other];
                   Call_Unlock] |})) /\
  (parseCertificateChain chain_ca_then_matching_leaf
   = Some (Ok [ca_ecdsa_other; leaf_rsa_key1]) /\
   filter is_leaf [ca_ecdsa_other; leaf_rsa_key1] = [leaf_rsa_key1] /\
   keyTypeMatches KeyType_RSA2048 (PublicKeyAlgorithm_ leaf_rsa_key1) = true /\
   ValidateLeafCertKeyMatch Reference.rsa_key 1 RSA (PublicKey leaf_rsa_key1)
   = (true, None) /\
   fst (ImportCertificate false
          (Reference.import_request "leaf" chain_ca_then_matching_leaf)
          Reference.st0)
   = Exit_return
       (Some (ErrorResponse
                "provided leaf certificate public key type 'ECDSA' does not match the transit key type 'rsa-2048'"))
       (Some ErrInvalidRequest)).
Proof.
  repeat split; vm_compute; reflexivity.
Qed.

(* ------------------------------------------------------------------ *)
(** ** Import: the number of leaves *)

(** C3: the leaf counter is a [uint8], so the chain check sees the number
    of leaves modulo 256, and a chain of 257 leaf certificates counts as one
    leaf: the check lets it pass and the import succeeds, where the claim
    has it fail for two or more leaves. *)
Theorem ImportCertificate_accepts_257_leaves :
  (forall chain,
      hasSingleLeafCertificate chain
      = (Z.of_nat (CountLeafCertificates chain) mod 256 =? 1)%Z) /\
  parseCertificateChain chain_257_leaves = Some (Ok (repeat leaf_rsa_key1 257)) /\
  CountLeafCertificates (repeat leaf_rsa_key1 257) = 257 /\
  hasSingleLeafCertificate (repeat leaf_rsa_key1 257) = true /\
  fst (ImportCertificate false (Reference.import_request "leaf" chain_257_leaves)
                         Reference.st0)
  = Exit_return None None.
Proof.
  split; [exact hasSingleLeafCertificate_mod|].
  repeat split; vm_compute; reflexivity.
Qed.

(* ------------------------------------------------------------------ *)
(** ** CSR decoding *)

(** C4, as stated, fails: [parseCsr] succeeds on an input of two blocks
    (it reads the first and drops the remainder) and on a block that is
    not of CSR type (it does not look at the type). *)
Lemma parseCsr_accepts_other_than_one_csr_block :
  (csr_then_certificate <> "" /\
   parseCsr csr_then_certificate = Ok {| RawCsr := "Qcn=a"; Subject := "cn=a" |} /\
   snd (pem_Decode csr_then_certificate) = Reference.cert_block "RLKEY1" /\
   ~ OneCsrBlock csr_then_certificate) /\
  (csr_labelled_certificate <> "" /\
   parseCsr csr_labelled_certificate
   = Ok {| RawCsr := "Qcn=a"; Subject := "cn=a" |} /\
   fst (pem_Decode csr_labelled_certificate)
   = Some {| Type_ := "CERTIFICATE"; Headers := []; Bytes := "Qcn=a" |} /\
   ~ OneCsrBlock csr_labelled_certificate).
Proof.
  split; (split; [discriminate|]); (split; [reflexivity|]); (split; [reflexivity|]).
  - intros (b & HD & _). vm_compute in HD. discriminate.
  - intros (b & HD & HT & _). vm_compute in HD.
    injection HD as <-. discriminate.
Qed.

(** C4, amended: the empty input gives the default template; a non-empty
    input gives [csr] exactly when [pem.Decode] finds a first block, of any
    type and whatever follows it, whose contents parse to [csr]; every other
    non-empty input gives an error. *)
Theorem parseCsr_spec (L : Codec) :
  parseCsr "" = Ok CertificateRequest_zero /\
  forall csrStr,
    csrStr <> "" ->
    (forall csr, parseCsr csrStr = Ok csr <-> FirstBlockParsesTo csrStr csr) /\
    ((exists e, parseCsr csrStr = Err e) <->
     ~ exists csr, FirstBlockParsesTo csrStr csr).
Proof.
  split; [reflexivity|].
  intros csrStr Hne. unfold parseCsr, FirstBlockParsesTo.
  apply String.eqb_neq in Hne. rewrite Hne.
  destruct (pem_Decode csrStr) as [[b|] rest].
  - destruct (x509_ParseCertificateRequest (Bytes b)) as [c|e] eqn:P.
    + split.
      * intros csr. split.
        -- intros [= <-]. now exists b, rest.
        -- intros (b' & rest' & [= <- <-] & P'). congruence.
      * split.
        -- intros [e He]. discriminate.
        -- intros Hno. exfalso. apply Hno. exists c, b, rest. auto.
    + split.
      * intros csr. split; [discriminate|].
        intros (b' & rest' & [= <- <-] & P'). congruence.
      * split; [|now exists e].
        intros _ (csr & b' & rest' & [= <- <-] & P'). congruence.
  - split.
    + intros csr. split; [discriminate|].
      intros (b' & rest' & HD & _). discriminate.
    + split; [|eexists; reflexivity].
      intros _ (csr & b' & rest' & HD & _). discriminate.
Qed.

(** The amended statement at work on the two inputs above. *)
Lemma parseCsr_spec_witness :
  csr_then_certificate <> "" /\
  (parseCsr csr_then_certificate = Ok {| RawCsr := "Qcn=a"; Subject := "cn=a" |} <->
   FirstBlockParsesTo csr_then_certificate {| RawCsr := "Qcn=a"; Subject := "cn=a" |}).
Proof.
  split; [discriminate|].
  apply (proj2 (parseCsr_spec Reference.codec) csr_then_certificate).
  discriminate.
Defined.

(* ------------------------------------------------------------------ *)
(** ** Signing with a key that cannot sign *)

(** C6: when the named key exists and its type does not support signing,
    [SignCertificateRequest] returns the signing-unsupported error response
    with [ErrInvalidRequest], whatever the version and the CSR template,
    malformed ones included: the template is not looked at. *)
Theorem SignCertificateRequest_signing_unsupported
        {Storage Policy : Type} (K : KeyStore Storage Policy) (L : Codec)
        (CachingDisabled : bool) (d : FieldData) (st : Storage) (p : Policy) :
  GetPolicy st (f_name d) = (Some p, None) ->
  SigningSupported (PolicyType p) = false ->
  SignCertificateRequest CachingDisabled d st =
  (Exit_return
     (Some (ErrorResponse
              ("key type '" ++ KeyType_String (PolicyType p)
                 ++ "' does not support signing")))
     (Some ErrInvalidRequest),
   {| storage := st;
      trace := Call_GetPolicy (f_name d)
               :: lock_calls CachingDisabled false ++ [Call_Unlock] |}).
Proof.
  intros HG HS.
  unfold SignCertificateRequest, run, pathSignCsrWrite, bind, defer, getPolicy,
    call, ret, return_, exit_, log, lock_calls.
  simpl. rewrite HG.
  destruct CachingDisabled; simpl; rewrite HS; reflexivity.
Qed.

Lemma SignCertificateRequest_signing_unsupported_witness :
  GetPolicy Reference.st0 "sym" = (Some Reference.aes_key, None) /\
  SigningSupported (PolicyType Reference.aes_key) = false /\
  Reference.ParseCertificateRequest "not a request" <> Ok CertificateRequest_zero /\
  SignCertificateRequest false
    {| f_name := "sym"; f_version := Some 7%Z; f_csr := "not a request";
       f_certificate_chain := "" |}
    Reference.st0 =
  (Exit_return
     (Some (ErrorResponse "key type 'aes256-gcm96' does not support signing"))
     (Some ErrInvalidRequest),
   {| storage := Reference.st0;
      trace := [Call_GetPolicy "sym"; Call_Lock false; Call_Unlock] |}).
Proof.
  split; [reflexivity|]. split; [reflexivity|]. split; [discriminate|].
  apply (@SignCertificateRequest_signing_unsupported _ _
           Reference.store Reference.codec false
           {| f_name := "sym"; f_version := Some 7%Z; f_csr := "not a request";
              f_certificate_chain := "" |}
           Reference.st0 Reference.aes_key); reflexivity.
Defined.

(* ------------------------------------------------------------------ *)
(** ** The compatibility table *)

(** C7: the handler's check is the table of the spec (ECDSA key types
    require ECDSA, ED25519 requires Ed25519, RSA key types require RSA, any
    other key type matches nothing), and an import that reaches the check
    with a mismatch is refused with a message that carries the string of
    the observed algorithm and the string of the key type. *)
Theorem keyTypeMatches_table
        {Storage Policy : Type} (K : KeyStore Storage Policy) (L : Codec) :
  (forall t alg, keyTypeMatches t alg = AlgorithmMatchesKeyType alg t) /\
  (forall t alg,
      keyTypeMatches t alg = true <->
      (In t [KeyType_ECDSA_P256; KeyType_ECDSA_P384; KeyType_ECDSA_P521]
       /\ alg = ECDSA) \/
      (t = KeyType_ED25519 /\ alg = Ed25519) \/
      (In t [KeyType_RSA2048; KeyType_RSA3072; KeyType_RSA4096] /\ alg = RSA)) /\
  (forall CachingDisabled d st p c0 tl,
      GetPolicy st (f_name d) = (Some p, None) ->
      SigningSupported (PolicyType p) = true ->
      parseCertificateChain (f_certificate_chain d) = Some (Ok (c0 :: tl)) ->
      hasSingleLeafCertificate (c0 :: tl) = true ->
      AlgorithmMatchesKeyType (PublicKeyAlgorithm_ c0) (PolicyType p) = false ->
      ImportCertificate CachingDisabled d st =
      (Exit_return
         (Some (ErrorResponse
                  ("provided leaf certificate public key type '"
                     ++ PublicKeyAlgorithm_String (PublicKeyAlgorithm_ c0)
                     ++ "' does not match the transit key type '"
                     ++ KeyType_String (PolicyType p) ++ "'")))
         (Some ErrInvalidRequest),
       {| storage := st;
          trace := Call_GetPolicy (f_name d)
                   :: lock_calls CachingDisabled true ++ [Call_Unlock] |})).
Proof.
  assert (Htable : forall t alg, keyTypeMatches t alg = AlgorithmMatchesKeyType alg t).
  { intros t alg. destruct t, alg; reflexivity. }
  split; [exact Htable|]. split.
  - intros t alg. split.
    + destruct t, alg; simpl; try discriminate; intros _; tauto.
    + intros [[Ht ->] | [[-> ->] | [Ht ->]]]; try reflexivity;
        simpl in Ht; intuition (subst; reflexivity).
  - intros cd d st p c0 tl HG HS HP HL HT. rewrite <- Htable in HT.
    unfold ImportCertificate, run, pathSetCertificateWrite, bind, defer, getPolicy,
      index0, call, ret, return_, exit_, log, lock_calls.
    simpl. rewrite HG.
    destruct cd; simpl; rewrite HS; simpl; rewrite HP, HL; simpl; rewrite HT;
      reflexivity.
Qed.

Lemma keyTypeMatches_table_witness :
  AlgorithmMatchesKeyType ECDSA KeyType_RSA2048 = false /\
  fst (ImportCertificate false
         (Reference.import_request "leaf" (Reference.cert_block "ELother"))
         Reference.st0)
  = Exit_return
      (Some (ErrorResponse
               "provided leaf certificate public key type 'ECDSA' does not match the transit key type 'rsa-2048'"))
      (Some ErrInvalidRequest).
Proof.
  split; [reflexivity|].
  rewrite (proj2 (proj2 (keyTypeMatches_table Reference.store Reference.codec))
             false (Reference.import_request "leaf" (Reference.cert_block "ELother"))
             Reference.st0 Reference.rsa_key leaf_ecdsa_other []);
    reflexivity.
Defined.

(* ------------------------------------------------------------------ *)
(** ** Import: validation before mutation *)

(** C8: an import that fails a validation step returns something other
    than success with the storage as it was and no persistence call made;
    any outcome other than success leaves the storage as it was; and when
    the persistence call is made, every check has passed and the call is
    the last one before the lock is released. *)
Theorem ImportCertificate_validates_before_persisting
        {Storage Policy : Type} (K : KeyStore Storage Policy) (L : Codec)
        (CachingDisabled : bool) (d : FieldData) (st : Storage)
        (e : Exit) (w' : World Storage) :
  ImportCertificate CachingDisabled d st = (e, w') ->
  ((forall p certChain keyVersion, ~ ValidationPasses d st p certChain keyVersion) ->
   e <> Exit_return None None /\ storage w' = st /\
   existsb is_persist (trace w') = false) /\
  (e <> Exit_return None None ->
   storage w' = st /\ existsb is_persist (trace w') = false) /\
  (existsb is_persist (trace w') = true ->
   exists p certChain keyVersion,
     ValidationPasses d st p certChain keyVersion /\
     trace w' = Call_GetPolicy (f_name d)
                :: lock_calls CachingDisabled true
                ++ [Call_ValidateLeafCertKeyMatch keyVersion;
                    Call_PersistCertificateChain keyVersion certChain;
                    Call_Unlock]).
Proof.
  intros Hrun.
  destruct (ImportCertificate_cases CachingDisabled d st)
    as [(p & c & v & HV) | [Hno (resp & err & tr & Hrej & Hne & Hnp)]].
  - rewrite (ImportCertificate_validated CachingDisabled HV) in Hrun.
    injection Hrun as <- <-. split; [|split].
    + intros Hno. destruct (Hno _ _ _ HV).
    + intros Hne. congruence.
    + intros _. exists p, c, v. split; [exact HV | reflexivity].
  - rewrite Hrej in Hrun. injection Hrun as <- <-. simpl.
    assert (He : Exit_return resp err <> Exit_return None None) by congruence.
    split; [|split]; auto.
    intros Hp. congruence.
Qed.

Lemma ImportCertificate_validates_before_persisting_witness :
  ImportCertificate false
    (Reference.import_request "leaf" (Reference.cert_block "RLother"))
    Reference.st0
  = (Exit_return
       (Some (ErrorResponse
                "leaf certificate public key does match the key version selected"))
       (Some ErrInvalidRequest),
     {| storage := Reference.st0;
        trace := [Call_GetPolicy "leaf"; Call_Lock true;
                  Call_ValidateLeafCertKeyMatch 1; Call_Unlock] |}) /\
  (Exit_return
     (Some (ErrorResponse
              "leaf certificate public key does match the key version selected"))
     (Some ErrInvalidRequest) <> Exit_return None None ->
   Reference.st0 = Reference.st0 /\
   existsb is_persist [Call_GetPolicy "leaf"; Call_Lock true;
                       Call_ValidateLeafCertKeyMatch 1; Call_Unlock] = false).
Proof.
  split; [reflexivity|].
  exact (proj1 (proj2
    (@ImportCertificate_validates_before_persisting _ _
       Reference.store Reference.codec false
       (Reference.import_request "leaf" (Reference.cert_block "RLother"))
       Reference.st0 _ _ eq_refl))).
Defined.

(* ------------------------------------------------------------------ *)
(** ** Import: the first element of the chain *)

(** C9: a chain that [parseCertificateChain] returns without error is not
    empty, so [certChain[0]] is an element of it and the import does not end
    in an index-out-of-range panic. *)
Theorem parseCertificateChain_first_in_bounds
        {Storage Policy : Type} (K : KeyStore Storage Policy) (L : Codec)
        (CachingDisabled : bool) (d : FieldData) (st : Storage)
        (certChain : list Certificate) :
  parseCertificateChain (f_certificate_chain d) = Some (Ok certChain) ->
  0 < List.length certChain /\
  (exists c0, nth_error certChain 0 = Some c0 /\
              forall w : World Storage, index0 certChain w = (inl c0, w)) /\
  exists resp err, fst (ImportCertificate CachingDisabled d st) = Exit_return resp err.
Proof.
  intros HP. pose proof (parseCertificateChain_nonempty _ HP) as Hne.
  destruct certChain as [|c0 tl]; [congruence|].
  split; [simpl; lia|]. split.
  - exists c0. split; reflexivity.
  - destruct (ImportCertificate_cases CachingDisabled d st)
      as [(p & c & v & HV) | [_ (resp & err & tr & Hrej & _)]].
    + rewrite (ImportCertificate_validated CachingDisabled HV). simpl. eauto.
    + rewrite Hrej. simpl. eauto.
Qed.

Lemma parseCertificateChain_first_in_bounds_witness :
  parseCertificateChain chain_ca_then_leaf
  = Some (Ok [ca_rsa_key1; leaf_ecdsa_other]) /\
  0 < List.length [ca_rsa_key1; leaf_ecdsa_other] /\
  (exists c0, nth_error [ca_rsa_key1; leaf_ecdsa_other] 0 = Some c0 /\
              forall w : World Reference.Storage,
                index0 [ca_rsa_key1; leaf_ecdsa_other] w = (inl c0, w)) /\
  exists resp err,
    fst (ImportCertificate false
           (Reference.import_request "leaf" chain_ca_then_leaf) Reference.st0)
    = Exit_return resp err.
Proof.
  split; [reflexivity|].
  apply (@parseCertificateChain_first_in_bounds _ _
           Reference.store Reference.codec false
           (Reference.import_request "leaf" chain_ca_then_leaf) Reference.st0).
  reflexivity.
Defined.

(* ------------------------------------------------------------------ *)
(** ** Signing writes nothing *)

(** C10: [SignCertificateRequest] always returns, leaves the storage as it
    was and makes no persistence call, on every path; an import changes the
    storage only through its persistence call, made after validation. *)
Theorem SignCertificateRequest_writes_nothing
        {Storage Policy : Type} (K : KeyStore Storage Policy) (L : Codec)
        (CachingDisabled : bool) (d : FieldData) (st : Storage) :
  (exists resp err, fst (SignCertificateRequest CachingDisabled d st)
                    = Exit_return resp err) /\
  storage (snd (SignCertificateRequest CachingDisabled d st)) = st /\
  existsb is_persist (trace (snd (SignCertificateRequest CachingDisabled d st)))
  = false /\
  (storage (snd (ImportCertificate CachingDisabled d st)) = st \/
   exists p certChain keyVersion,
     ValidationPasses d st p certChain keyVersion /\
     storage (snd (ImportCertificate CachingDisabled d st))
     = fst (PersistCertificateChain p keyVersion certChain st)).
Proof.
  destruct (SignCertificateRequest_frame CachingDisabled d st)
    as (resp & err & tr & -> & Hnp).
  simpl. split; [eauto|]. split; [reflexivity|]. split; [exact Hnp|].
  destruct (ImportCertificate_cases CachingDisabled d st)
    as [(p & c & v & HV) | [_ (resp' & err' & tr' & Hrej & _)]].
  - right. exists p, c, v. split; [exact HV|].
    now rewrite (ImportCertificate_validated CachingDisabled HV).
  - left. now rewrite Hrej.
Qed.

(** A signing request that succeeds, and the calls it makes. *)
Example SignCertificateRequest_empty_template :
  SignCertificateRequest false (Reference.sign_request "leaf" "") Reference.st0
  = (Exit_return
       (Some (DataResponse "leaf" "rsa-2048" (Reference.csr_block "Q")))
       None,
     {| storage := Reference.st0;
        trace := [Call_GetPolicy "leaf"; Call_Lock false; Call_CreateCsr 1;
                  Call_Unlock] |}).
Proof. reflexivity. Qed.

(* ------------------------------------------------------------------ *)
(** ** More on certificate-chain decoding *)

Section DecodingMore.
Context {L : Codec}.

(** An input that has a block is not empty. *)
Lemma pem_Decode_nonempty (data rest : string) (b : Block) :
  pem_Decode data = (Some b, rest) -> data <> "".
Proof.
  intros HD ->. apply pem_Decode_consumes in HD. simpl in HD. lia.
Qed.

Lemma Blocks_length (s : string) (bs : list Block) :
  Blocks s bs -> List.length bs <= String.length s.
Proof.
  induction 1 as [|data rest b bs Hne HD HB IH]; simpl; [lia|].
  apply pem_Decode_consumes in HD. lia.
Qed.

(** With enough fuel the first loop collects the blocks of the input. *)
Lemma decodeBlocks_complete (s : string) (bs : list Block) :
  Blocks s bs ->
  forall fuel acc,
    String.length s <= fuel ->
    decodeBlocks fuel s acc = Some (Ok (acc ++ bs)%list).
Proof.
  induction 1 as [|data rest b bs Hne HD HB IH]; intros fuel acc Hf.
  - destruct fuel; simpl; now rewrite app_nil_r.
  - pose proof (pem_Decode_consumes _ HD) as Hlt.
    destruct fuel as [|fuel]; [lia|].
    simpl. apply String.eqb_neq in Hne. rewrite Hne, HD.
    rewrite IH by lia. now rewrite <- app_assoc.
Qed.

(** With enough fuel the first loop stops at the remainder without block. *)
Lemma decodeBlocks_fails (s : string) :
  DecodeFails s ->
  forall fuel acc,
    String.length s <= fuel ->
    decodeBlocks fuel s acc
    = Some (Err (errors_New "could not decode certificate in certificate chain")).
Proof.
  induction 1 as [data rest Hne HD | data rest b Hne HD HF IH]; intros fuel acc Hf.
  - destruct fuel as [|fuel]; [destruct data; simpl in *; [congruence | lia]|].
    simpl. apply String.eqb_neq in Hne. now rewrite Hne, HD.
  - pose proof (pem_Decode_consumes _ HD) as Hlt.
    destruct fuel as [|fuel]; [lia|].
    simpl. apply String.eqb_neq in Hne. rewrite Hne, HD.
    apply IH. lia.
Qed.

Lemma parseBlocks_complete (bs : list Block) (cs : list Certificate) :
  Forall2 ParsesTo bs cs ->
  forall acc, parseBlocks bs acc = Ok (acc ++ cs)%list.
Proof.
  induction 1 as [|b c bs cs HP HF IH]; intros acc; simpl.
  - now rewrite app_nil_r.
  - unfold ParsesTo in HP. rewrite HP, IH. now rewrite <- app_assoc.
Qed.

Lemma parseBlocks_first_failure
      (pre post : list Block) (b : Block) (cs : list Certificate) (e : error) :
  Forall2 ParsesTo pre cs ->
  x509_ParseCertificate (Bytes b) = Err e ->
  forall acc,
    parseBlocks (pre ++ b :: post) acc
    = Err (errors_New
             ("failed to parse certificate in certificate chain: " ++ Error e)).
Proof.
  intros HF Hb. induction HF as [|b0 c bs cs0 HP HF IH]; intros acc; simpl.
  - now rewrite Hb.
  - unfold ParsesTo in HP. rewrite HP. apply IH.
Qed.

Lemma parseBlocks_error_message (bs : list Block) :
  forall acc e,
    parseBlocks bs acc = Err e ->
    exists e',
      e = errors_New
            ("failed to parse certificate in certificate chain: " ++ Error e').
Proof.
  induction bs as [|b bs IH]; intros acc e; simpl; [discriminate|].
  destruct (x509_ParseCertificate (Bytes b)) as [c|e0].
  - apply IH.
  - intros [= <-]. now exists e0.
Qed.

Lemma parseCertificateChain_of_blocks (s : string) (bs : list Block) :
  Blocks s bs ->
  parseCertificateChain s =
  if Nat.eqb (List.length bs) 0
  then Some (Err (errors_New
                    "no certificates provided in `certificate_chain` parameter"))
  else Some (parseBlocks bs []).
Proof.
  intros HB. unfold parseCertificateChain.
  now rewrite (decodeBlocks_complete HB (fuel := String.length s) [] (le_n _)).
Qed.
End DecodingMore.

(** X1: decoding is compositional: when the input starts with a block that
    parses to [c], and the remainder is empty or decodes to the chain
    [cs], the input decodes to [c] followed by that chain. *)
Theorem parseCertificateChain_cons
        (L : Codec) (s rest : string) (b : Block) (c : Certificate) :
  pem_Decode s = (Some b, rest) ->
  x509_ParseCertificate (Bytes b) = Ok c ->
  (rest = "" -> parseCertificateChain s = Some (Ok [c])) /\
  (forall cs,
      parseCertificateChain rest = Some (Ok cs) ->
      parseCertificateChain s = Some (Ok (c :: cs))).
Proof.
  intros HD HP. pose proof (pem_Decode_nonempty HD) as Hne. split.
  - intros ->.
    rewrite (parseCertificateChain_of_blocks (Blocks_cons Hne HD Blocks_nil)).
    simpl. now rewrite HP.
  - intros cs Hcs. apply parseCertificateChain_ok in Hcs.
    destruct Hcs as (bs & HB & _ & HF).
    rewrite (parseCertificateChain_of_blocks (Blocks_cons Hne HD HB)).
    simpl. rewrite HP. now rewrite (parseBlocks_complete HF).
Qed.

Lemma parseCertificateChain_cons_witness :
  pem_Decode chain_ca_then_leaf
  = (Some {| Type_ := "CERTIFICATE"; Headers := []; Bytes := "RCKEY1" |},
     Reference.cert_block "ELother") /\
  x509_ParseCertificate "RCKEY1" = Ok ca_rsa_key1 /\
  parseCertificateChain (Reference.cert_block "ELother")
  = Some (Ok [leaf_ecdsa_other]) /\
  parseCertificateChain chain_ca_then_leaf
  = Some (Ok [ca_rsa_key1; leaf_ecdsa_other]).
Proof.
  split; [reflexivity|]. split; [reflexivity|]. split; [reflexivity|].
  apply (proj2 (@parseCertificateChain_cons Reference.codec chain_ca_then_leaf
                  (Reference.cert_block "ELother")
                  {| Type_ := "CERTIFICATE"; Headers := []; Bytes := "RCKEY1" |}
                  ca_rsa_key1 eq_refl eq_refl)).
  reflexivity.
Defined.

(** X2: every block is armour-decoded before any is parsed as a certificate:
    when stripping blocks meets a remainder without block, the error is
    the armour error, also when an earlier block is not a certificate. *)
Theorem parseCertificateChain_decode_error_first (L : Codec) (s : string) :
  DecodeFails s ->
  parseCertificateChain s
  = Some (Err (errors_New "could not decode certificate in certificate chain")).
Proof.
  intros HF. unfold parseCertificateChain.
  now rewrite (decodeBlocks_fails HF (fuel := String.length s) [] (le_n _)).
Qed.

Lemma parseCertificateChain_decode_error_first_witness :
  DecodeFails bad_block_then_text /\
  x509_ParseCertificate "??" = Err (errors_New "x509: malformed certificate") /\
  parseCertificateChain bad_block_then_text
  = Some (Err (errors_New "could not decode certificate in certificate chain")).
Proof.
  assert (HF : DecodeFails (L := Reference.codec) bad_block_then_text).
  { eapply DecodeFails_later with (rest := "trailing text")
                                  (b := {| Type_ := "CERTIFICATE"; Headers := [];
                                           Bytes := "??" |});
      [discriminate | reflexivity|].
    eapply DecodeFails_here with (rest := "trailing text");
      [discriminate | reflexivity]. }
  split; [exact HF|]. split; [reflexivity|].
  exact (@parseCertificateChain_decode_error_first Reference.codec _ HF).
Defined.

(** X3: the "no certificates provided" error is the answer to the empty input
    and to no other. *)
Theorem parseCertificateChain_no_certificates (L : Codec) (s : string) :
  parseCertificateChain s
  = Some (Err (errors_New
                 "no certificates provided in `certificate_chain` parameter"))
  <-> s = "".
Proof.
  split; [|intros ->; reflexivity].
  intros H. destruct (parseCertificateChain_err _ H) as [HF | (bs & HB & Hbad)].
  - unfold parseCertificateChain in H.
    rewrite (decodeBlocks_fails HF (fuel := String.length s) [] (le_n _)) in H.
    discriminate.
  - destruct Hbad as [-> | HE]; [now inversion HB|].
    rewrite (parseCertificateChain_of_blocks HB) in H.
    destruct bs as [|b bs]; [inversion HE|].
    change (Nat.eqb (List.length (b :: bs)) 0) with false in H.
    injection H as H.
    change (parseBlocks (b :: bs) []
            = Err (errors_New
                     "no certificates provided in `certificate_chain` parameter"))
      in H.
    destruct (parseBlocks_error_message _ _ H) as [e' He']. discriminate.
Qed.

(** X4: the parse error that is reported is the one of the first block, in
    input order, that is not a certificate. *)
Theorem parseCertificateChain_first_parse_error
        (L : Codec) (s : string) (pre post : list Block) (b : Block)
        (cs : list Certificate) (e : error) :
  Blocks s (pre ++ b :: post) ->
  Forall2 ParsesTo pre cs ->
  x509_ParseCertificate (Bytes b) = Err e ->
  parseCertificateChain s
  = Some (Err (errors_New
                 ("failed to parse certificate in certificate chain: " ++ Error e))).
Proof.
  intros HB HF Hb. rewrite (parseCertificateChain_of_blocks HB).
  rewrite length_app. simpl. rewrite Nat.add_succ_r. simpl.
  now rewrite (@parseBlocks_first_failure L pre post b cs e HF Hb []).
Qed.

Lemma chain_with_two_bad_blocks_Blocks :
  Blocks chain_with_two_bad_blocks
         ([{| Type_ := "CERTIFICATE"; Headers := []; Bytes := "RLKEY1" |}]
            ++ {| Type_ := "CERTIFICATE"; Headers := []; Bytes := "??" |}
            :: [{| Type_ := "CERTIFICATE"; Headers := []; Bytes := "!!" |}]).
Proof.
  eapply Blocks_cons with (rest := Reference.cert_block "??"
                                     ++ Reference.cert_block "!!");
    [discriminate | reflexivity|].
  eapply Blocks_cons with (rest := Reference.cert_block "!!");
    [discriminate | reflexivity|].
  eapply Blocks_cons with (rest := ""); [discriminate | reflexivity|].
  constructor.
Defined.

Lemma parseCertificateChain_first_parse_error_witness :
  Blocks chain_with_two_bad_blocks
         ([{| Type_ := "CERTIFICATE"; Headers := []; Bytes := "RLKEY1" |}]
            ++ {| Type_ := "CERTIFICATE"; Headers := []; Bytes := "??" |}
            :: [{| Type_ := "CERTIFICATE"; Headers := []; Bytes := "!!" |}]) /\
  Forall2 ParsesTo
          [{| Type_ := "CERTIFICATE"; Headers := []; Bytes := "RLKEY1" |}]
          [leaf_rsa_key1] /\
  x509_ParseCertificate "??" = Err (errors_New "x509: malformed certificate") /\
  parseCertificateChain chain_with_two_bad_blocks
  = Some (Err (errors_New
                 "failed to parse certificate in certificate chain: x509: malformed certificate")).
Proof.
  split; [exact chain_with_two_bad_blocks_Blocks|].
  split; [repeat constructor|]. split; [reflexivity|].
  apply (@parseCertificateChain_first_parse_error Reference.codec _
           [{| Type_ := "CERTIFICATE"; Headers := []; Bytes := "RLKEY1" |}]
           [{| Type_ := "CERTIFICATE"; Headers := []; Bytes := "!!" |}]
           {| Type_ := "CERTIFICATE"; Headers := []; Bytes := "??" |}
           [leaf_rsa_key1] (errors_New "x509: malformed certificate")).
  - exact chain_with_two_bad_blocks_Blocks.
  - repeat constructor.
  - reflexivity.
Defined.

(* ------------------------------------------------------------------ *)
(** ** The handlers, path by path *)

Section HandlerPaths.
Context {Storage Policy : Type} {K : KeyStore Storage Policy} {L : Codec}.

Ltac run_handlers :=
  unfold ImportCertificate, SignCertificateRequest, run,
    pathSetCertificateWrite, pathSignCsrWrite,
    bind, defer, getPolicy, createCsr, validateLeafCertKeyMatch,
    persistCertificateChain, index0, call, ret, return_, exit_, log,
    prologue, lock_calls, keyVersionOf in *;
  simpl.

Ltac use_hyps :=
  repeat match goal with
         | H : ?l = _ |- context [?l] => rewrite H; simpl
         end.

Ltac by_hyps CachingDisabled :=
  run_handlers; use_hyps; destruct CachingDisabled; simpl; use_hyps;
  try reflexivity.

(** X5: both handlers answer a name that has no key with the not-found error
    response; no lock is taken or released. *)
Theorem handlers_key_not_found
        (CachingDisabled : bool) (d : FieldData) (st : Storage) :
  GetPolicy st (f_name d) = (None, None) ->
  let answer :=
    (Exit_return
       (Some (ErrorResponse
                ("key with provided name '" ++ f_name d ++ "' not found")))
       (Some ErrInvalidRequest),
     {| storage := st; trace := [Call_GetPolicy (f_name d)] |}) in
  SignCertificateRequest CachingDisabled d st = answer /\
  ImportCertificate CachingDisabled d st = answer.
Proof.
  intros HG. split; run_handlers; rewrite HG; reflexivity.
Qed.

(** X6: both handlers return a lookup error as it is, with no response, also
    when the lookup hands back a key with it; no lock is taken or
    released. *)
Theorem handlers_lookup_error
        (CachingDisabled : bool) (d : FieldData) (st : Storage)
        (p : option Policy) (e : error) :
  GetPolicy st (f_name d) = (p, Some e) ->
  let answer :=
    (Exit_return None (Some e),
     {| storage := st; trace := [Call_GetPolicy (f_name d)] |}) in
  SignCertificateRequest CachingDisabled d st = answer /\
  ImportCertificate CachingDisabled d st = answer.
Proof.
  intros HG. split; run_handlers; rewrite HG; reflexivity.
Qed.

(** X7: signing succeeds with the key's name, the string of its type and the
    CSR the store made for the targeted version from the decoded template. *)
Theorem SignCertificateRequest_success
        (CachingDisabled : bool) (d : FieldData) (st : Storage) (p : Policy)
        (csrTemplate : CertificateRequest) (pemCsr : string) :
  GetPolicy st (f_name d) = (Some p, None) ->
  SigningSupported (PolicyType p) = true ->
  parseCsr (f_csr d) = Ok csrTemplate ->
  CreateCsr p (keyVersionOf d p) csrTemplate = (pemCsr, None) ->
  SignCertificateRequest CachingDisabled d st =
  (Exit_return
     (Some (DataResponse (Name p) (KeyType_String (PolicyType p)) pemCsr))
     None,
   {| storage := st;
      trace := prologue CachingDisabled false d
               ++ [Call_CreateCsr (keyVersionOf d p); Call_Unlock] |}).
Proof.
  intros HG HS HP HC. by_hyps CachingDisabled.
Qed.

(** X8: an error of the store's CSR creation is returned as it is, with no
    response. *)
Theorem SignCertificateRequest_store_error
        (CachingDisabled : bool) (d : FieldData) (st : Storage) (p : Policy)
        (csrTemplate : CertificateRequest) (pemCsr : string) (e : error) :
  GetPolicy st (f_name d) = (Some p, None) ->
  SigningSupported (PolicyType p) = true ->
  parseCsr (f_csr d) = Ok csrTemplate ->
  CreateCsr p (keyVersionOf d p) csrTemplate = (pemCsr, Some e) ->
  SignCertificateRequest CachingDisabled d st =
  (Exit_return None (Some e),
   {| storage := st;
      trace := prologue CachingDisabled false d
               ++ [Call_CreateCsr (keyVersionOf d p); Call_Unlock] |}).
Proof.
  intros HG HS HP HC. by_hyps CachingDisabled.
Qed.

(** X9: a template that does not decode is answered with the decoder's message
    as an error response; the store is not asked for a CSR. *)
Theorem SignCertificateRequest_malformed_template
        (CachingDisabled : bool) (d : FieldData) (st : Storage) (p : Policy)
        (e : error) :
  GetPolicy st (f_name d) = (Some p, None) ->
  SigningSupported (PolicyType p) = true ->
  parseCsr (f_csr d) = Err e ->
  SignCertificateRequest CachingDisabled d st =
  (Exit_return (Some (ErrorResponse (Error e))) (Some ErrInvalidRequest),
   {| storage := st;
      trace := prologue CachingDisabled false d ++ [Call_Unlock] |}).
Proof.
  intros HG HS HP. by_hyps CachingDisabled.
Qed.

(** X10: an import on a key whose type does not support signing is refused
    before the chain is decoded, whatever the chain. *)
Theorem ImportCertificate_signing_unsupported
        (CachingDisabled : bool) (d : FieldData) (st : Storage) (p : Policy) :
  GetPolicy st (f_name d) = (Some p, None) ->
  SigningSupported (PolicyType p) = false ->
  ImportCertificate CachingDisabled d st =
  (Exit_return
     (Some (ErrorResponse
              ("key type " ++ KeyType_String (PolicyType p)
                 ++ " does not support signing")))
     (Some ErrInvalidRequest),
   {| storage := st;
      trace := prologue CachingDisabled true d ++ [Call_Unlock] |}).
Proof.
  intros HG HS. by_hyps CachingDisabled.
Qed.

(** X11: a chain that does not decode is answered with the decoder's message as
    an error response; the key-match check is not reached. *)
Theorem ImportCertificate_malformed_chain
        (CachingDisabled : bool) (d : FieldData) (st : Storage) (p : Policy)
        (e : error) :
  GetPolicy st (f_name d) = (Some p, None) ->
  SigningSupported (PolicyType p) = true ->
  parseCertificateChain (f_certificate_chain d) = Some (Err e) ->
  ImportCertificate CachingDisabled d st =
  (Exit_return (Some (ErrorResponse (Error e))) (Some ErrInvalidRequest),
   {| storage := st;
      trace := prologue CachingDisabled true d ++ [Call_Unlock] |}).
Proof.
  intros HG HS HP. by_hyps CachingDisabled.
Qed.

(** X12: a chain none of whose certificates has valid basic constraints with the
    CA flag off (certificates without basic constraints included) is
    refused by the leaf check. *)
Theorem ImportCertificate_no_leaf
        (CachingDisabled : bool) (d : FieldData) (st : Storage) (p : Policy)
        (certChain : list Certificate) :
  GetPolicy st (f_name d) = (Some p, None) ->
  SigningSupported (PolicyType p) = true ->
  parseCertificateChain (f_certificate_chain d) = Some (Ok certChain) ->
  (forall c, In c certChain -> BasicConstraintsValid c = false \/ IsCA c = true) ->
  ImportCertificate CachingDisabled d st =
  (Exit_return
     (Some (ErrorResponse
              "expected a single leaf certificate in the certificate chain"))
     (Some ErrInvalidRequest),
   {| storage := st;
      trace := prologue CachingDisabled true d ++ [Call_Unlock] |}).
Proof.
  intros HG HS HP Hall.
  assert (HL : hasSingleLeafCertificate certChain = false).
  { rewrite hasSingleLeafCertificate_mod.
    assert (H0 : CountLeafCertificates certChain = 0).
    { unfold CountLeafCertificates. clear HP.
      induction certChain as [|c cs IH]; [reflexivity|]. simpl.
      assert (Hc : is_leaf c = false).
      { unfold is_leaf. destruct (Hall c (or_introl eq_refl)) as [-> | ->];
          [reflexivity | apply andb_false_r]. }
      rewrite Hc. apply IH. intros c' Hin. apply Hall. now right. }
    now rewrite H0. }
  by_hyps CachingDisabled.
Qed.

(** X13: when the store answers that the key of [certChain[0]] is not that of
    the targeted version, the import is refused with an error response and
    nothing is persisted. *)
Theorem ImportCertificate_key_mismatch
        (CachingDisabled : bool) (d : FieldData) (st : Storage) (p : Policy)
        (c0 : Certificate) (tl : list Certificate) :
  GetPolicy st (f_name d) = (Some p, None) ->
  SigningSupported (PolicyType p) = true ->
  parseCertificateChain (f_certificate_chain d) = Some (Ok (c0 :: tl)) ->
  hasSingleLeafCertificate (c0 :: tl) = true ->
  keyTypeMatches (PolicyType p) (PublicKeyAlgorithm_ c0) = true ->
  ValidateLeafCertKeyMatch p (keyVersionOf d p)
                           (PublicKeyAlgorithm_ c0) (PublicKey c0)
  = (false, None) ->
  ImportCertificate CachingDisabled d st =
  (Exit_return
     (Some (ErrorResponse
              "leaf certificate public key does match the key version selected"))
     (Some ErrInvalidRequest),
   {| storage := st;
      trace := prologue CachingDisabled true d
               ++ [Call_ValidateLeafCertKeyMatch (keyVersionOf d p);
                   Call_Unlock] |}).
Proof.
  intros HG HS HP HL HT HV. by_hyps CachingDisabled.
Qed.

(** X14: when the store cannot complete the key-match check, the import returns
    an error that wraps the store's message, with no response, whatever the
    boolean the store returned with the error; nothing is persisted. *)
Theorem ImportCertificate_key_check_error
        (CachingDisabled : bool) (d : FieldData) (st : Storage) (p : Policy)
        (c0 : Certificate) (tl : list Certificate) (valid : bool) (e : error) :
  GetPolicy st (f_name d) = (Some p, None) ->
  SigningSupported (PolicyType p) = true ->
  parseCertificateChain (f_certificate_chain d) = Some (Ok (c0 :: tl)) ->
  hasSingleLeafCertificate (c0 :: tl) = true ->
  keyTypeMatches (PolicyType p) (PublicKeyAlgorithm_ c0) = true ->
  ValidateLeafCertKeyMatch p (keyVersionOf d p)
                           (PublicKeyAlgorithm_ c0) (PublicKey c0)
  = (valid, Some e) ->
  ImportCertificate CachingDisabled d st =
  (Exit_return
     None
     (Some (errors_New
              ("could not validate key match between leaf certificate key and key version in transit: "
                 ++ Error e))),
   {| storage := st;
      trace := prologue CachingDisabled true d
               ++ [Call_ValidateLeafCertKeyMatch (keyVersionOf d p);
                   Call_Unlock] |}).
Proof.
  intros HG HS HP HL HT HV. by_hyps CachingDisabled.
Qed.
End HandlerPaths.

(* ------------------------------------------------------------------ *)
(** ** The handlers, on every path *)

Section HandlerInvariants.
Context {Storage Policy : Type} {K : KeyStore Storage Policy} {L : Codec}.

Ltac run_handlers :=
  unfold ImportCertificate, SignCertificateRequest, run,
    pathSetCertificateWrite, pathSignCsrWrite,
    bind, defer, getPolicy, createCsr, validateLeafCertKeyMatch,
    persistCertificateChain, index0, call, ret, return_, exit_, log,
    prologue, lock_calls, keyVersionOf in *;
  simpl.

(** X15: the calls of a signing request: the lookup alone when no key comes
    back; else the lookup, the shared lock unless caching is disabled, at
    most one CSR creation, for the targeted version, and one unlock, last. *)
Theorem SignCertificateRequest_calls
        (CachingDisabled : bool) (d : FieldData) (st : Storage) :
  let tr := trace (snd (SignCertificateRequest CachingDisabled d st)) in
  match GetPolicy st (f_name d) with
  | (Some p, None) =>
      tr = (prologue CachingDisabled false d ++ [Call_Unlock])%list \/
      tr = (prologue CachingDisabled false d
              ++ [Call_CreateCsr (keyVersionOf d p); Call_Unlock])%list
  | _ => tr = [Call_GetPolicy (f_name d)]
  end.
Proof.
  run_handlers.
  destruct (GetPolicy st (f_name d)) as [[p|] [e|]]; try reflexivity.
  destruct (SigningSupported (PolicyType p));
    [|destruct CachingDisabled; left; reflexivity].
  destruct (parseCsr (f_csr d)) as [t|e];
    [|destruct CachingDisabled; left; reflexivity].
  destruct CachingDisabled; simpl;
    destruct (CreateCsr p _ t) as [pem [e|]]; right; reflexivity.
Qed.

(** X16: the calls of an import: the lookup alone when no key comes back; else
    the lookup, the exclusive lock unless caching is disabled, at most one
    key-match check, at most one persistence call, made after the check for
    the same version and with the whole decoded chain, and one unlock,
    last. *)
Theorem ImportCertificate_calls
        (CachingDisabled : bool) (d : FieldData) (st : Storage) :
  let tr := trace (snd (ImportCertificate CachingDisabled d st)) in
  match GetPolicy st (f_name d) with
  | (Some p, None) =>
      tr = (prologue CachingDisabled true d ++ [Call_Unlock])%list \/
      tr = (prologue CachingDisabled true d
              ++ [Call_ValidateLeafCertKeyMatch (keyVersionOf d p);
                  Call_Unlock])%list \/
      exists certChain,
        parseCertificateChain (f_certificate_chain d) = Some (Ok certChain) /\
        tr = (prologue CachingDisabled true d
                ++ [Call_ValidateLeafCertKeyMatch (keyVersionOf d p);
                    Call_PersistCertificateChain (keyVersionOf d p) certChain;
                    Call_Unlock])%list
  | _ => tr = [Call_GetPolicy (f_name d)]
  end.
Proof.
  run_handlers.
  destruct (GetPolicy st (f_name d)) as [[p|] [e|]]; try reflexivity.
  destruct (SigningSupported (PolicyType p));
    [|destruct CachingDisabled; left; reflexivity].
  destruct (parseCertificateChain (f_certificate_chain d)) as [[certChain|e]|];
    [|destruct CachingDisabled; left; reflexivity..].
  destruct (hasSingleLeafCertificate certChain);
    [|destruct CachingDisabled; left; reflexivity].
  destruct certChain as [|c0 tl];
    [destruct CachingDisabled; left; reflexivity|].
  destruct (keyTypeMatches (PolicyType p) (PublicKeyAlgorithm_ c0));
    [|destruct CachingDisabled; left; reflexivity].
  destruct CachingDisabled; simpl;
    destruct (ValidateLeafCertKeyMatch p _ (PublicKeyAlgorithm_ c0) (PublicKey c0))
      as [[|] [e|]]; simpl;
    try (right; left; reflexivity);
    destruct (PersistCertificateChain p _ (c0 :: tl) st);
    right; right; exists (c0 :: tl); split; reflexivity.
Qed.


(** X18: an import reports success exactly when every validation step passes;
    the storage is then what the store's persistence call made of it, given
    the whole decoded chain and the targeted version. *)
Theorem ImportCertificate_success_iff
        (CachingDisabled : bool) (d : FieldData) (st : Storage) :
  (fst (ImportCertificate CachingDisabled d st) = Exit_return None None <->
   exists p certChain, ValidationPasses d st p certChain (keyVersionOf d p)) /\
  (forall p certChain,
      ValidationPasses d st p certChain (keyVersionOf d p) ->
      storage (snd (ImportCertificate CachingDisabled d st))
      = fst (PersistCertificateChain p (keyVersionOf d p) certChain st)).
Proof.
  split; [split|].
  - intros Hok.
    destruct (ImportCertificate_cases CachingDisabled d st)
      as [(p & c & v & HV) | [_ (resp & err & tr & Hrej & Hne & _)]].
    + exists p, c. destruct HV as (H1 & H2 & H3 & H4 & -> & H5).
      unfold ValidationPasses, keyVersionOf. auto 10.
    + rewrite Hrej in Hok. simpl in Hok. congruence.
  - intros (p & c & HV).
    now rewrite (ImportCertificate_validated CachingDisabled HV).
  - intros p c HV.
    now rewrite (ImportCertificate_validated CachingDisabled HV).
Qed.
End HandlerInvariants.

(* ------------------------------------------------------------------ *)
(** ** More on the leaf check *)

Lemma CountLeafCertificates_app (a b : list Certificate) :
  CountLeafCertificates (a ++ b)
  = CountLeafCertificates a + CountLeafCertificates b.
Proof.
  unfold CountLeafCertificates. now rewrite filter_app, length_app.
Qed.

Lemma CountLeafCertificates_Permutation (a b : list Certificate) :
  Permutation a b -> CountLeafCertificates a = CountLeafCertificates b.
Proof.
  unfold CountLeafCertificates.
  induction 1 as [|x a b HP IH|x y a|a b c H1 IH1 H2 IH2]; simpl.
  - reflexivity.
  - destruct (is_leaf x); simpl; congruence.
  - destruct (is_leaf x), (is_leaf y); reflexivity.
  - congruence.
Qed.

Lemma CountLeafCertificates_none (cas : list Certificate) :
  (forall c, In c cas -> is_leaf c = false) -> CountLeafCertificates cas = 0.
Proof.
  unfold CountLeafCertificates.
  induction cas as [|c cas IH]; intros Hall; [reflexivity|]. simpl.
  rewrite (Hall c (or_introl eq_refl)). apply IH.
  intros c' Hin. apply Hall. now right.
Qed.

(** X20: the leaf check does not depend on the order of the chain. *)
Theorem hasSingleLeafCertificate_order (chain chain' : list Certificate) :
  Permutation chain chain' ->
  hasSingleLeafCertificate chain = hasSingleLeafCertificate chain'.
Proof.
  intros HP. rewrite !hasSingleLeafCertificate_mod.
  now rewrite (CountLeafCertificates_Permutation HP).
Qed.

Lemma hasSingleLeafCertificate_order_witness :
  Permutation [ca_rsa_key1; leaf_ecdsa_other] [leaf_ecdsa_other; ca_rsa_key1] /\
  hasSingleLeafCertificate [ca_rsa_key1; leaf_ecdsa_other]
  = hasSingleLeafCertificate [leaf_ecdsa_other; ca_rsa_key1].
Proof.
  split; [apply perm_swap|].
  apply hasSingleLeafCertificate_order. apply perm_swap.
Defined.

(** X21: certificates that are not leaves (CA certificates, certificates
    without valid basic constraints) do not change the outcome of the leaf
    check, wherever they stand in the chain. *)
Theorem hasSingleLeafCertificate_ignores_non_leaves
        (before chain after : list Certificate) :
  (forall c, In c (before ++ after) -> is_leaf c = false) ->
  hasSingleLeafCertificate (before ++ chain ++ after)
  = hasSingleLeafCertificate chain.
Proof.
  intros Hall. rewrite !hasSingleLeafCertificate_mod.
  rewrite !CountLeafCertificates_app.
  rewrite (@CountLeafCertificates_none before), (@CountLeafCertificates_none after).
  - now rewrite Nat.add_0_r.
  - intros c Hin. apply Hall. apply in_or_app. now right.
  - intros c Hin. apply Hall. apply in_or_app. now left.
Qed.

Lemma hasSingleLeafCertificate_ignores_non_leaves_witness :
  (forall c, In c ([ca_rsa_key1] ++ [ca_ecdsa_other]) -> is_leaf c = false) /\
  hasSingleLeafCertificate ([ca_rsa_key1] ++ [leaf_rsa_key1] ++ [ca_ecdsa_other])
  = hasSingleLeafCertificate [leaf_rsa_key1].
Proof.
  assert (H : forall c, In c ([ca_rsa_key1] ++ [ca_ecdsa_other]) -> is_leaf c = false).
  { intros c [<- | [<- | []]]; reflexivity. }
  split; [exact H|].
  exact (@hasSingleLeafCertificate_ignores_non_leaves
           [ca_rsa_key1] [leaf_rsa_key1] [ca_ecdsa_other] H).
Defined.

Lemma hasSingleLeafCertificate_small_witness :
  CountLeafCertificates [ca_rsa_key1; leaf_ecdsa_other] < 256 /\
  (hasSingleLeafCertificate [ca_rsa_key1; leaf_ecdsa_other] = true <->
   CountLeafCertificates [ca_rsa_key1; leaf_ecdsa_other] = 1).
Proof.
  assert (H : CountLeafCertificates [ca_rsa_key1; leaf_ecdsa_other] < 256)
    by (unfold CountLeafCertificates; simpl; lia).
  split; [exact H|].
  exact (@hasSingleLeafCertificate_small [ca_rsa_key1; leaf_ecdsa_other] H).
Defined.

(* ------------------------------------------------------------------ *)
(** ** The paths on the reference store *)

Lemma handlers_key_not_found_witness :
  GetPolicy Reference.st0 "absent" = (None, None) /\
  SignCertificateRequest false (Reference.sign_request "absent" "") Reference.st0
  = (Exit_return
       (Some (ErrorResponse "key with provided name 'absent' not found"))
       (Some ErrInvalidRequest),
     {| storage := Reference.st0; trace := [Call_GetPolicy "absent"] |}) /\
  ImportCertificate false (Reference.sign_request "absent" "") Reference.st0
  = (Exit_return
       (Some (ErrorResponse "key with provided name 'absent' not found"))
       (Some ErrInvalidRequest),
     {| storage := Reference.st0; trace := [Call_GetPolicy "absent"] |}).
Proof.
  split; [reflexivity|].
  exact (@handlers_key_not_found _ _ Reference.store Reference.codec false
           (Reference.sign_request "absent" "") Reference.st0 eq_refl).
Defined.

Lemma handlers_lookup_error_witness :
  @SignCertificateRequest _ _ unavailable_store Reference.codec false
     (Reference.sign_request "leaf" "") Reference.st0
  = (Exit_return None (Some (errors_New "storage unavailable")),
     {| storage := Reference.st0; trace := [Call_GetPolicy "leaf"] |}) /\
  @ImportCertificate _ _ unavailable_store Reference.codec false
     (Reference.sign_request "leaf" "") Reference.st0
  = (Exit_return None (Some (errors_New "storage unavailable")),
     {| storage := Reference.st0; trace := [Call_GetPolicy "leaf"] |}).
Proof.
  exact (@handlers_lookup_error _ _ unavailable_store Reference.codec false
           (Reference.sign_request "leaf" "") Reference.st0
           (Some Reference.rsa_key) (errors_New "storage unavailable") eq_refl).
Defined.

Lemma SignCertificateRequest_success_witness :
  parseCsr (Reference.csr_block "Qcn=a")
  = Ok {| RawCsr := "Qcn=a"; Subject := "cn=a" |} /\
  SignCertificateRequest true
    (Reference.sign_request "leaf" (Reference.csr_block "Qcn=a")) Reference.st0
  = (Exit_return
       (Some (DataResponse "leaf" "rsa-2048" (Reference.csr_block "Qcn=a")))
       None,
     {| storage := Reference.st0;
        trace := [Call_GetPolicy "leaf"; Call_CreateCsr 1; Call_Unlock] |}).
Proof.
  split; [reflexivity|].
  exact (@SignCertificateRequest_success _ _ Reference.store Reference.codec true
           (Reference.sign_request "leaf" (Reference.csr_block "Qcn=a"))
           Reference.st0 Reference.rsa_key
           {| RawCsr := "Qcn=a"; Subject := "cn=a" |}
           (Reference.csr_block "Qcn=a") eq_refl eq_refl eq_refl eq_refl).
Defined.

Lemma SignCertificateRequest_store_error_witness :
  SignCertificateRequest false (request_v9 "leaf" "" "") Reference.st0
  = (Exit_return None (Some (errors_New "version not found")),
     {| storage := Reference.st0;
        trace := [Call_GetPolicy "leaf"; Call_Lock false; Call_CreateCsr 9;
                  Call_Unlock] |}).
Proof.
  exact (@SignCertificateRequest_store_error _ _ Reference.store Reference.codec
           false (request_v9 "leaf" "" "") Reference.st0 Reference.rsa_key
           CertificateRequest_zero "" (errors_New "version not found")
           eq_refl eq_refl eq_refl eq_refl).
Defined.

Lemma SignCertificateRequest_malformed_template_witness :
  SignCertificateRequest false (Reference.sign_request "leaf" "not armoured")
                         Reference.st0
  = (Exit_return
       (Some (ErrorResponse "could not decode PEM certificate request"))
       (Some ErrInvalidRequest),
     {| storage := Reference.st0;
        trace := [Call_GetPolicy "leaf"; Call_Lock false; Call_Unlock] |}).
Proof.
  exact (@SignCertificateRequest_malformed_template _ _
           Reference.store Reference.codec false
           (Reference.sign_request "leaf" "not armoured") Reference.st0
           Reference.rsa_key
           (errors_New "could not decode PEM certificate request")
           eq_refl eq_refl eq_refl).
Defined.

Lemma ImportCertificate_signing_unsupported_witness :
  ImportCertificate false (Reference.import_request "sym" "not armoured")
                    Reference.st0
  = (Exit_return
       (Some (ErrorResponse "key type aes256-gcm96 does not support signing"))
       (Some ErrInvalidRequest),
     {| storage := Reference.st0;
        trace := [Call_GetPolicy "sym"; Call_Lock true; Call_Unlock] |}).
Proof.
  exact (@ImportCertificate_signing_unsupported _ _
           Reference.store Reference.codec false
           (Reference.import_request "sym" "not armoured") Reference.st0
           Reference.aes_key eq_refl eq_refl).
Defined.

Lemma ImportCertificate_malformed_chain_witness :
  ImportCertificate false (Reference.import_request "leaf" "") Reference.st0
  = (Exit_return
       (Some (ErrorResponse
                "no certificates provided in `certificate_chain` parameter"))
       (Some ErrInvalidRequest),
     {| storage := Reference.st0;
        trace := [Call_GetPolicy "leaf"; Call_Lock true; Call_Unlock] |}).
Proof.
  exact (@ImportCertificate_malformed_chain _ _
           Reference.store Reference.codec false
           (Reference.import_request "leaf" "") Reference.st0 Reference.rsa_key
           (errors_New "no certificates provided in `certificate_chain` parameter")
           eq_refl eq_refl eq_refl).
Defined.

Lemma ImportCertificate_no_leaf_witness :
  parseCertificateChain chain_without_leaf
  = Some (Ok [ca_rsa_key1;
              {| Raw := "RNKEY1"; PublicKeyAlgorithm_ := RSA; PublicKey := "KEY1";
                 BasicConstraintsValid := false; IsCA := false |}]) /\
  ImportCertificate false (Reference.import_request "leaf" chain_without_leaf)
                    Reference.st0
  = (Exit_return
       (Some (ErrorResponse
                "expected a single leaf certificate in the certificate chain"))
       (Some ErrInvalidRequest),
     {| storage := Reference.st0;
        trace := [Call_GetPolicy "leaf"; Call_Lock true; Call_Unlock] |}).
Proof.
  split; [reflexivity|].
  apply (@ImportCertificate_no_leaf _ _ Reference.store Reference.codec false
           (Reference.import_request "leaf" chain_without_leaf) Reference.st0
           Reference.rsa_key
           [ca_rsa_key1;
            {| Raw := "RNKEY1"; PublicKeyAlgorithm_ := RSA; PublicKey := "KEY1";
               BasicConstraintsValid := false; IsCA := false |}]
           eq_refl eq_refl eq_refl).
  intros c [<- | [<- | []]]; [right | left]; reflexivity.
Defined.

Lemma ImportCertificate_key_mismatch_witness :
  ImportCertificate false
    (Reference.import_request "leaf" (Reference.cert_block "RLother"))
    Reference.st0
  = (Exit_return
       (Some (ErrorResponse
                "leaf certificate public key does match the key version selected"))
       (Some ErrInvalidRequest),
     {| storage := Reference.st0;
        trace := [Call_GetPolicy "leaf"; Call_Lock true;
                  Call_ValidateLeafCertKeyMatch 1; Call_Unlock] |}).
Proof.
  exact (@ImportCertificate_key_mismatch _ _ Reference.store Reference.codec false
           (Reference.import_request "leaf" (Reference.cert_block "RLother"))
           Reference.st0 Reference.rsa_key
           {| Raw := "RLother"; PublicKeyAlgorithm_ := RSA; PublicKey := "other";
              BasicConstraintsValid := true; IsCA := false |} []
           eq_refl eq_refl eq_refl eq_refl eq_refl eq_refl).
Defined.

Lemma ImportCertificate_key_check_error_witness :
  ImportCertificate false
    (request_v9 "leaf" "" (Reference.cert_block "RLKEY1")) Reference.st0
  = (Exit_return
       None
       (Some (errors_New
                "could not validate key match between leaf certificate key and key version in transit: version not found")),
     {| storage := Reference.st0;
        trace := [Call_GetPolicy "leaf"; Call_Lock true;
                  Call_ValidateLeafCertKeyMatch 9; Call_Unlock] |}).
Proof.
  exact (@ImportCertificate_key_check_error _ _ Reference.store Reference.codec
           false (request_v9 "leaf" "" (Reference.cert_block "RLKEY1"))
           Reference.st0 Reference.rsa_key leaf_rsa_key1 [] false
           (errors_New "version not found")
           eq_refl eq_refl eq_refl eq_refl eq_refl eq_refl).
Defined.

(* ------------------------------------------------------------------ *)
(** ** The earlier revision, on every path *)

Section Draft.
Context {Storage Policy : Type} {K : KeyStore Storage Policy}.

(** X22: the earlier revision never returns a response, leaves the storage as
    it was, never asks the store for a CSR, and reports success exactly when
    the lookup hands back a key without error, whatever the type of the key
    and the template; it then prints the targeted version. *)
Theorem pathSignCsrWrite_draft_paths
        (CachingDisabled : bool) (d : FieldData) (st : Storage) :
  let out := pathSignCsrWrite_draft CachingDisabled d
                                    {| storage := st; trace := [] |} in
  (exists err, fst (fst out) = Exit_return None err) /\
  storage (snd (fst out)) = st /\
  (forall v, ~ In (Call_CreateCsr v) (trace (snd (fst out)))) /\
  (fst (fst out) = Exit_return None None <->
   exists p, GetPolicy st (f_name d) = (Some p, None)) /\
  (forall p,
      GetPolicy st (f_name d) = (Some p, None) ->
      snd out = ["Signing key version: " ++ Itoa (keyVersionOf d p)] /\
      trace (snd (fst out))
      = (prologue CachingDisabled false d ++ [Call_Unlock])%list).
Proof.
  unfold pathSignCsrWrite_draft, getPolicy, log, prologue, lock_calls, keyVersionOf.
  simpl.
  destruct (GetPolicy st (f_name d)) as [[p|] [e|]]; simpl;
    try destruct CachingDisabled; simpl;
    repeat split; eauto;
    try discriminate;
    try (intros v H; simpl in H; intuition discriminate);
    try (intros [p' H]; discriminate);
    try (intros p' [= <-]; reflexivity);
    try (intros p' H; discriminate);
    try match goal with
        | H : (Some _, None) = (Some _, None) |- _ =>
            injection H as <-; reflexivity
        end.
Qed.
End Draft.
